(** * Library loans (src/index.ts): a shallow embedding and its properties

    The TypeScript program keeps its objects ([Libro], [Usuario], [Prestamo],
    [GestorPrestamos]) on the JavaScript heap and shares them by reference.
    Here the heap is explicit: one store per class, a reference is an index
    into the store of its class, and every method is a computation over the
    whole world (stores, system clock, console and notifier trace).

    Time: the system clock is a sequence of readings and each [new Date()]
    takes the next one; the host's time zone is a parameter of the world.

    Numbers: every [number] the program handles is an integer (time values in
    milliseconds, whole days, fines); they are modelled as [Z], which agrees
    with IEEE doubles on the integers of magnitude below 2^53. *)

From Stdlib Require Import ZArith Lia List Bool Ascii String.
From stdpp Require Import base tactics option list strings.

Local Open Scope Z_scope.

(** ** Console lines and the trace of observable effects *)

(** One constructor per [console.log] template of the source; the arguments
    are the values interpolated into the template. *)
Inductive Linea : Type :=
  | LogNoDisponible (titulo : string)
      (* El libro '${libro.titulo}' no está disponible *)
  | LogPrestamoRealizado (titulo nombre : string)
      (* Préstamo realizado: '${libro.titulo}' para ${usuario.nombre} *)
  | LogYaDevuelto
      (* Este libro ya fue devuelto *)
  | LogRetraso (dias_retraso multa : Z)
      (* Retraso de ${dias_retraso} días. Multa: $${multa} *)
  | LogATiempo
      (* Libro devuelto a tiempo *)
  | LogDevuelto (titulo nombre : string)
      (* '${prestamo.libro.titulo}' devuelto por ${prestamo.usuario.nombre} *)
  | LogEmail (destinatario mensaje : string)
      (* Email a ${destinatario}: ${mensaje} *)
  | LogSMS (destinatario mensaje : string).
      (* SMS a ${destinatario}: ${mensaje} *)

(** What a method of one of the two abstract classes may do besides
    returning: write lines to the console. *)
Definition Salida (A : Type) : Type := A * list Linea.

(** ** The JavaScript [Date] operations the program calls

    A [Date] object is its time value: milliseconds since 1970-01-01T00:00Z.
    The definitions follow ECMA-262 (Date objects, "Overview of Date objects
    and definitions of abstract operations"); the civil calendar is computed
    with the usual era / day-of-era arithmetic.  The program builds its dates
    from the system clock and a 14-day shift, so every time value stays far
    inside the range on which [TimeClip] is the identity; it is left out. *)
Module Fecha.

Definition msPerDay : Z := 86400000.
Definition msPerHour : Z := 3600000.
Definition msPerMinute : Z := 60000.
Definition msPerSecond : Z := 1000.

Definition Day (t : Z) : Z := t / msPerDay.
Definition TimeWithinDay (t : Z) : Z := t mod msPerDay.

(** Day number of the first day of year [y]. *)
Definition DayFromYear (y : Z) : Z :=
  365 * (y - 1970) + (y - 1969) / 4 - (y - 1901) / 100 + (y - 1601) / 400.

Definition anio_bisiesto (y : Z) : bool :=
  ((y mod 4 =? 0) && negb (y mod 100 =? 0)) || (y mod 400 =? 0).

(** Day within the year on which month [m] (0 = January) starts. *)
Definition inicio_mes (bisiesto : bool) (m : Z) : Z :=
  let b := if bisiesto then 1 else 0 in
  match m with
  | 0 => 0 | 1 => 31 | 2 => 59 + b | 3 => 90 + b | 4 => 120 + b
  | 5 => 151 + b | 6 => 181 + b | 7 => 212 + b | 8 => 243 + b
  | 9 => 273 + b | 10 => 304 + b | _ => 334 + b
  end.

(** Number of days of month [m] (0 = January). *)
Definition dias_del_mes (bisiesto : bool) (m : Z) : Z :=
  match m with
  | 1 => if bisiesto then 29 else 28
  | 3 | 5 | 8 | 10 => 30
  | _ => 31
  end.

(** Year, month (0..11) and day of the month (1..31). *)
Record Civil : Type := { anio : Z; mes : Z; dia : Z }.

(** Civil date of a day number; years run March to February inside a
    400-year era of 146097 days. *)
Definition civil_de_dia (z : Z) : Civil :=
  let z := z + 719468 in
  let era := z / 146097 in
  let doe := z mod 146097 in
  let yoe := (doe - doe / 1460 + doe / 36524 - doe / 146096) / 365 in
  let doy := doe - (365 * yoe + yoe / 4 - yoe / 100) in
  let mp := (5 * doy + 2) / 153 in
  let d := doy - (153 * mp + 2) / 5 + 1 in
  let m := if mp <? 10 then mp + 2 else mp - 10 in
  {| anio := yoe + era * 400 + (if m <? 2 then 1 else 0); mes := m; dia := d |}.

(** Day number of a civil date. *)
Definition dia_de_civil (y m d : Z) : Z :=
  let y := if m <? 2 then y - 1 else y in
  let era := y / 400 in
  let yoe := y mod 400 in
  let mp := if m <? 2 then m + 10 else m - 2 in
  let doy := (153 * mp + 2) / 5 + d - 1 in
  let doe := yoe * 365 + yoe / 4 - yoe / 100 + doy in
  era * 146097 + doe - 719468.

Definition YearFromTime (t : Z) : Z := anio (civil_de_dia (Day t)).
Definition MonthFromTime (t : Z) : Z := mes (civil_de_dia (Day t)).
Definition DateFromTime (t : Z) : Z := dia (civil_de_dia (Day t)).
Definition HourFromTime (t : Z) : Z := (t / msPerHour) mod 24.
Definition MinFromTime (t : Z) : Z := (t / msPerMinute) mod 60.
Definition SecFromTime (t : Z) : Z := (t / msPerSecond) mod 60.
Definition msFromTime (t : Z) : Z := t mod msPerSecond.

(** [MakeDay(year, month, date)]: the day number of the first of the month,
    plus [date - 1]. *)
Definition MakeDay (year month date : Z) : Z :=
  let ym := year + month / 12 in
  let mn := month mod 12 in
  dia_de_civil ym mn 1 + date - 1.

Definition MakeDate (day time : Z) : Z := day * msPerDay + time.

(** The host's time zone: [zona t true] is the offset of local time from
    UTC at the UTC instant [t], [zona t false] the offset at the local
    time [t] (ECMA-262 [LocalTZA(t, isUTC)]). *)
Definition Zona : Type := Z -> bool -> Z.

Definition LocalTime (zona : Zona) (t : Z) : Z := t + zona t true.
Definition UTC (zona : Zona) (t : Z) : Z := t - zona t false.

(** [Date.prototype.getDate()]. *)
Definition getDate (zona : Zona) (tv : Z) : Z :=
  DateFromTime (LocalTime zona tv).

(** [Date.prototype.setDate(date)]: the new time value. *)
Definition setDate (zona : Zona) (tv date : Z) : Z :=
  let t := LocalTime zona tv in
  let newDate :=
    MakeDate (MakeDay (YearFromTime t) (MonthFromTime t) date)
             (TimeWithinDay t) in
  UTC zona newDate.

(** [Date.prototype.getTime()]. *)
Definition getTime (tv : Z) : Z := tv.

Definition digito (d : Z) : ascii :=
  nth (Z.to_nat d)
      ["0"; "1"; "2"; "3"; "4"; "5"; "6"; "7"; "8"; "9"]%char "0"%char.

(** The [n] low decimal digits of [z], zero padded. *)
Fixpoint digitos (n : nat) (z : Z) : string :=
  match n with
  | O => EmptyString
  | S n' => digitos n' (z / 10) +:+ String (digito (z mod 10)) EmptyString
  end.

(** The year of the ISO format: four digits from 0 to 9999, otherwise a
    sign and six digits. *)
Definition anio_iso (y : Z) : string :=
  if (0 <=? y) && (y <=? 9999) then digitos 4 y
  else (if y <? 0 then "-" else "+") +:+ digitos 6 (Z.abs y).

(** [YYYY-MM-DD] *)
Definition fecha_iso (tv : Z) : string :=
  anio_iso (YearFromTime tv) +:+ "-" +:+ digitos 2 (MonthFromTime tv + 1)
    +:+ "-" +:+ digitos 2 (DateFromTime tv).

(** [HH:mm:ss.sssZ] *)
Definition hora_iso (tv : Z) : string :=
  digitos 2 (HourFromTime tv) +:+ ":" +:+ digitos 2 (MinFromTime tv)
    +:+ ":" +:+ digitos 2 (SecFromTime tv) +:+ "." +:+ digitos 3 (msFromTime tv)
    +:+ "Z".

(** [Date.prototype.toISOString()] *)
Definition toISOString (tv : Z) : string :=
  fecha_iso tv +:+ "T" +:+ hora_iso tv.

End Fecha.
Import Fecha.

(** [String.prototype.split] with a separator of one character. *)
Fixpoint split (separador : ascii) (s : string) : list string :=
  match s with
  | EmptyString => [EmptyString]
  | String c s' =>
      if Ascii.eqb c separador then EmptyString :: split separador s'
      else match split separador s' with
           | [] => [String c EmptyString]
           | x :: r => String c x :: r
           end
  end.

(** [a[i]] inside a template literal: a missing element prints as
    [undefined]. *)
Definition elemento (a : list string) (i : nat) : string :=
  nth i a "undefined"%string.

(** ** 1. Single responsibility: the entities *)

(** A reference to an object: its index in the store of its class. *)
Abbreviation Ref := nat (only parsing).

Record Libro : Type := {
  titulo : string;
  autor : string;
  isbn : string;
  disponible : bool
}.

Record Usuario : Type := {
  nombre : string;
  id_usuario : string
}.

Record Prestamo : Type := {
  libro : Ref;             (* shared reference to a [Libro] *)
  usuario : Ref;           (* shared reference to a [Usuario] *)
  fecha_prestamo : Z;
  fecha_devolucion : Z;
  devuelto : bool
}.

(** ** 2. Open/closed: fine calculators *)

(** [abstract class CalculadoraMulta]: an object of the class is its
    [calcular] method. *)
Record CalculadoraMulta : Type := { calcular : Z -> Salida Z }.

Definition MultaEstandar : CalculadoraMulta :=
  {| calcular dias_retraso := (dias_retraso * 10, []) |}.

Definition MultaEstudiante : CalculadoraMulta :=
  {| calcular dias_retraso := (dias_retraso * 5, []) |}.

Definition MultaVIP : CalculadoraMulta :=
  {| calcular dias_retraso := (0, []) |}.

(** ** 3. Liskov substitution: notifiers *)

(** [abstract class Notificador]: an object of the class is its [enviar]
    method. *)
Record Notificador : Type := { enviar : string -> string -> Salida bool }.

Definition NotificadorEmail : Notificador :=
  {| enviar mensaje destinatario := (true, [LogEmail destinatario mensaje]) |}.

Definition NotificadorSMS : Notificador :=
  {| enviar mensaje destinatario := (true, [LogSMS destinatario mensaje]) |}.

(** ** 4. Interface segregation

    The interfaces [Reservable], [Prestable] and [Renovable] are declared
    only: no class implements them and nothing calls them. *)

(** ** 5. Dependency inversion: the loan manager object *)

Record GestorPrestamos : Type := {
  calculadora_multa : CalculadoraMulta;
  notificador : Notificador;
  prestamos : list Ref     (* references to [Prestamo] objects, in push order *)
}.

(** Field assignments. *)
Definition con_disponible (b : bool) (l : Libro) : Libro :=
  {| titulo := titulo l; autor := autor l; isbn := isbn l; disponible := b |}.

Definition con_devuelto (b : bool) (p : Prestamo) : Prestamo :=
  {| libro := libro p; usuario := usuario p;
     fecha_prestamo := fecha_prestamo p;
     fecha_devolucion := fecha_devolucion p; devuelto := b |}.

Definition con_fecha_devolucion (t : Z) (p : Prestamo) : Prestamo :=
  {| libro := libro p; usuario := usuario p;
     fecha_prestamo := fecha_prestamo p;
     fecha_devolucion := t; devuelto := devuelto p |}.

Definition con_prestamos (ps : list Ref) (g : GestorPrestamos) : GestorPrestamos :=
  {| calculadora_multa := calculadora_multa g; notificador := notificador g;
     prestamos := ps |}.

(** ** The world *)

(** Observable effects in program order: lines written to the console, and
    the calls of [Notificador.enviar] with their arguments and result. *)
Inductive Evento : Type :=
  | Consola (l : Linea)
  | Llamada_enviar (mensaje destinatario : string) (resultado : bool).

Record Mundo : Type := {
  libros : list Libro;
  usuarios : list Usuario;
  objetos_prestamo : list Prestamo;
  gestores : list GestorPrestamos;
  reloj : nat -> Z;        (* the k-th reading of the system clock *)
  lecturas : nat;          (* number of readings taken so far *)
  zona : Zona;             (* the host's time zone *)
  traza : list Evento
}.

(** A world with no object yet. *)
Definition mundo_inicial (r : nat -> Z) (z : Zona) : Mundo :=
  {| libros := []; usuarios := []; objetos_prestamo := []; gestores := [];
     reloj := r; lecturas := 0; zona := z; traza := [] |}.

Definition con_libros (f : list Libro -> list Libro) (w : Mundo) : Mundo :=
  {| libros := f (libros w); usuarios := usuarios w;
     objetos_prestamo := objetos_prestamo w; gestores := gestores w;
     reloj := reloj w; lecturas := lecturas w; zona := zona w;
     traza := traza w |}.

Definition con_usuarios (f : list Usuario -> list Usuario) (w : Mundo) : Mundo :=
  {| libros := libros w; usuarios := f (usuarios w);
     objetos_prestamo := objetos_prestamo w; gestores := gestores w;
     reloj := reloj w; lecturas := lecturas w; zona := zona w;
     traza := traza w |}.

Definition con_objetos_prestamo (f : list Prestamo -> list Prestamo) (w : Mundo) : Mundo :=
  {| libros := libros w; usuarios := usuarios w;
     objetos_prestamo := f (objetos_prestamo w); gestores := gestores w;
     reloj := reloj w; lecturas := lecturas w; zona := zona w;
     traza := traza w |}.

Definition con_gestores (f : list GestorPrestamos -> list GestorPrestamos) (w : Mundo) : Mundo :=
  {| libros := libros w; usuarios := usuarios w;
     objetos_prestamo := objetos_prestamo w; gestores := f (gestores w);
     reloj := reloj w; lecturas := lecturas w; zona := zona w;
     traza := traza w |}.

Definition con_lecturas (n : nat) (w : Mundo) : Mundo :=
  {| libros := libros w; usuarios := usuarios w;
     objetos_prestamo := objetos_prestamo w; gestores := gestores w;
     reloj := reloj w; lecturas := n; zona := zona w;
     traza := traza w |}.

Definition con_traza (f : list Evento -> list Evento) (w : Mundo) : Mundo :=
  {| libros := libros w; usuarios := usuarios w;
     objetos_prestamo := objetos_prestamo w; gestores := gestores w;
     reloj := reloj w; lecturas := lecturas w; zona := zona w;
     traza := f (traza w) |}.

(** ** Computations over the world

    [None] stands for the one failure the JavaScript code can meet: using a
    reference that denotes no object, which the TypeScript types rule out. *)
Definition M (A : Type) : Type := Mundo -> option (A * Mundo).

#[export] Instance M_ret : MRet M := fun A x w => Some (x, w).

#[export] Instance M_bind : MBind M := fun A B f m w =>
  match m w with
  | Some (x, w') => f x w'
  | None => None
  end.

Definition leer : M Mundo := fun w => Some (w, w).

Definition modificar (f : Mundo -> Mundo) : M unit := fun w => Some (tt, f w).

Definition de_opcion {A : Type} (o : option A) : M A :=
  fun w => match o with Some x => Some (x, w) | None => None end.

Definition leer_libro (r : Ref) : M Libro :=
  w ← leer; de_opcion (libros w !! r).

Definition leer_usuario (r : Ref) : M Usuario :=
  w ← leer; de_opcion (usuarios w !! r).

Definition leer_prestamo (r : Ref) : M Prestamo :=
  w ← leer; de_opcion (objetos_prestamo w !! r).

Definition leer_gestor (r : Ref) : M GestorPrestamos :=
  w ← leer; de_opcion (gestores w !! r).

Definition escribir_libro (r : Ref) (f : Libro -> Libro) : M unit :=
  l ← leer_libro r; modificar (con_libros (<[r := f l]>)).

Definition escribir_prestamo (r : Ref) (f : Prestamo -> Prestamo) : M unit :=
  p ← leer_prestamo r; modificar (con_objetos_prestamo (<[r := f p]>)).

Definition escribir_gestor (r : Ref) (f : GestorPrestamos -> GestorPrestamos) : M unit :=
  g ← leer_gestor r; modificar (con_gestores (<[r := f g]>)).

(** [new Date()]: the next reading of the system clock. *)
Definition new_Date : M Z :=
  w ← leer;
  modificar (con_lecturas (S (lecturas w)));;
  mret (reloj w (lecturas w)).

Definition console_log (l : Linea) : M unit :=
  modificar (con_traza (fun t => t ++ [Consola l])).

(** Running a method of [CalculadoraMulta] or [Notificador]: its console
    lines join the trace. *)
Definition ejecutar_salida {A : Type} (s : Salida A) : M A :=
  modificar (con_traza (fun t => t ++ map Consola (snd s)));;
  mret (fst s).

(** A call of [notificador.enviar], recorded in the trace after the lines
    the notifier itself prints. *)
Definition llamar_enviar (n : Notificador) (mensaje destinatario : string) : M bool :=
  r ← ejecutar_salida (enviar n mensaje destinatario);
  modificar (con_traza (fun t => t ++ [Llamada_enviar mensaje destinatario r]));;
  mret r.

(** ** Constructors *)

(** [new Libro(titulo, autor, isbn)] *)
Definition new_Libro (titulo autor isbn : string) : M Ref :=
  w ← leer;
  modificar (con_libros (fun ls => ls ++
    [{| titulo := titulo; autor := autor; isbn := isbn; disponible := true |}]));;
  mret (length (libros w)).

(** [new Usuario(nombre, id_usuario)] *)
Definition new_Usuario (nombre id_usuario : string) : M Ref :=
  w ← leer;
  modificar (con_usuarios (fun us => us ++
    [{| nombre := nombre; id_usuario := id_usuario |}]));;
  mret (length (usuarios w)).

(** [new Prestamo(libro, usuario)]: the clock is read once for each of the
    two dates, and the second one is moved 14 days of the local calendar
    ahead. *)
Definition new_Prestamo (libro usuario : Ref) : M Ref :=
  fecha_prestamo ← new_Date;
  fecha_devolucion ← new_Date;
  w ← leer;
  let fecha_devolucion :=
    setDate (zona w) fecha_devolucion (getDate (zona w) fecha_devolucion + 14) in
  modificar (con_objetos_prestamo (fun ps => ps ++
    [{| libro := libro; usuario := usuario; fecha_prestamo := fecha_prestamo;
        fecha_devolucion := fecha_devolucion; devuelto := false |}]));;
  mret (length (objetos_prestamo w)).

(** [new GestorPrestamos(calculadora_multa, notificador)] *)
Definition new_GestorPrestamos (calculadora_multa : CalculadoraMulta)
    (notificador : Notificador) : M Ref :=
  w ← leer;
  modificar (con_gestores (fun gs => gs ++
    [{| calculadora_multa := calculadora_multa; notificador := notificador;
        prestamos := [] |}]));;
  mret (length (gestores w)).

(** ** Methods of [GestorPrestamos] *)

(** The text of the notification. *)
Definition mensaje_prestamo (titulo : string) (fecha_devolucion : Z) : string :=
  "Has prestado '" +:+ titulo +:+ "'. Fecha de devolución: "
    +:+ elemento (split "T" (toISOString fecha_devolucion)) 0.

Definition realizar_prestamo (this libro usuario : Ref) : M (option Ref) :=
  l ← leer_libro libro;
  if negb (disponible l) then
    console_log (LogNoDisponible (titulo l));;
    mret None
  else
    escribir_libro libro (con_disponible false);;
    prestamo ← new_Prestamo libro usuario;
    escribir_gestor this (fun g => con_prestamos (prestamos g ++ [prestamo]) g);;
    p ← leer_prestamo prestamo;
    let mensaje := mensaje_prestamo (titulo l) (fecha_devolucion p) in
    g ← leer_gestor this;
    u ← leer_usuario usuario;
    llamar_enviar (notificador g) mensaje (nombre u);;
    console_log (LogPrestamoRealizado (titulo l) (nombre u));;
    mret (Some prestamo).

Definition devolver_libro (this prestamo : Ref) : M unit :=
  p ← leer_prestamo prestamo;
  if devuelto p then
    console_log LogYaDevuelto
  else
    fecha_actual ← new_Date;
    (if fecha_devolucion p <? fecha_actual then
       let dias_retraso :=
         (getTime fecha_actual - getTime (fecha_devolucion p))
           / (1000 * 60 * 60 * 24) in
       g ← leer_gestor this;
       multa ← ejecutar_salida (calcular (calculadora_multa g) dias_retraso);
       console_log (LogRetraso dias_retraso multa)
     else
       console_log LogATiempo);;
    escribir_prestamo prestamo (con_devuelto true);;
    escribir_libro (libro p) (con_disponible true);;
    l ← leer_libro (libro p);
    u ← leer_usuario (usuario p);
    console_log (LogDevuelto (titulo l) (nombre u)).

(** ** Callers

    What code outside the manager does with the objects: it constructs
    books, users and managers, calls the two methods, and (as [main] does to
    simulate a late return) assigns a loan's [fecha_devolucion]. *)
Inductive Op : Type :=
  | OpNewLibro (titulo autor isbn : string)
  | OpNewUsuario (nombre id_usuario : string)
  | OpNewGestorPrestamos (c : CalculadoraMulta) (n : Notificador)
  | OpRealizarPrestamo (gestor libro usuario : Ref)
  | OpDevolverLibro (gestor prestamo : Ref)
  | OpAsignarFechaDevolucion (prestamo : Ref) (t : Z).

Definition paso (o : Op) : M unit :=
  match o with
  | OpNewLibro t a i => new_Libro t a i;; mret tt
  | OpNewUsuario n i => new_Usuario n i;; mret tt
  | OpNewGestorPrestamos c n => new_GestorPrestamos c n;; mret tt
  | OpRealizarPrestamo g l u => realizar_prestamo g l u;; mret tt
  | OpDevolverLibro g p => devolver_libro g p
  | OpAsignarFechaDevolucion p t => escribir_prestamo p (con_fecha_devolucion t)
  end.

Fixpoint ejecutar (ops : list Op) : M unit :=
  match ops with
  | [] => mret tt
  | o :: ops' => paso o;; ejecutar ops'
  end.

(** The worlds a program can be in: those reached from an empty world. *)
Definition alcanzable (w : Mundo) : Prop :=
  exists r z ops, ejecutar ops (mundo_inicial r z) = Some (tt, w).

(** ** The outcomes of the two methods, written out

    The worlds below are what the methods compute on each of their paths;
    the lemmas of the second part prove it. *)

(** The loan object that [new Prestamo(libro, usuario)] builds in [w]. *)
Definition prestamo_nuevo (w : Mundo) (libro usuario : Ref) : Prestamo :=
  let t := reloj w (S (lecturas w)) in
  {| libro := libro; usuario := usuario;
     fecha_prestamo := reloj w (lecturas w);
     fecha_devolucion := setDate (zona w) t (getDate (zona w) t + 14);
     devuelto := false |}.

(** [realizar_prestamo] on a book that is out. *)
Definition mundo_tras_rechazo (L : Libro) (w : Mundo) : Mundo :=
  con_traza (fun t => t ++ [Consola (LogNoDisponible (titulo L))]) w.

(** What a successful [realizar_prestamo] adds to the trace. *)
Definition eventos_prestamo (G : GestorPrestamos) (L : Libro) (U : Usuario)
    (P : Prestamo) : list Evento :=
  let mensaje := mensaje_prestamo (titulo L) (fecha_devolucion P) in
  let r := enviar (notificador G) mensaje (nombre U) in
  map Consola (snd r)
    ++ [Llamada_enviar mensaje (nombre U) (fst r);
        Consola (LogPrestamoRealizado (titulo L) (nombre U))].

(** [realizar_prestamo] on an available book. *)
Definition mundo_tras_prestamo (this b u : Ref) (L : Libro) (U : Usuario)
    (G : GestorPrestamos) (w : Mundo) : Mundo :=
  let p := length (objetos_prestamo w) in
  let P := prestamo_nuevo w b u in
  {| libros := <[b := con_disponible false L]> (libros w);
     usuarios := usuarios w;
     objetos_prestamo := objetos_prestamo w ++ [P];
     gestores := <[this := con_prestamos (prestamos G ++ [p]) G]> (gestores w);
     reloj := reloj w; lecturas := S (S (lecturas w)); zona := zona w;
     traza := traza w ++ eventos_prestamo G L U P |}.

(** [devolver_libro] on a loan already returned. *)
Definition mundo_tras_ya_devuelto (w : Mundo) : Mundo :=
  con_traza (fun t => t ++ [Consola LogYaDevuelto]) w.

(** The late report: the calculator's own lines, then the line with the
    days and the fine. *)
Definition informe_tarde (G : GestorPrestamos) (fecha_devolucion fecha_actual : Z)
    : list Evento :=
  let dias_retraso := (fecha_actual - fecha_devolucion) / (1000 * 60 * 60 * 24) in
  let r := calcular (calculadora_multa G) dias_retraso in
  map Consola (snd r) ++ [Consola (LogRetraso dias_retraso (fst r))].

(** [devolver_libro] on a loan not yet returned; [informe] is the late or
    the on-time report. *)
Definition mundo_tras_devolucion (p : Ref) (P : Prestamo) (L : Libro)
    (U : Usuario) (informe : list Evento) (w : Mundo) : Mundo :=
  {| libros := <[libro P := con_disponible true L]> (libros w);
     usuarios := usuarios w;
     objetos_prestamo := <[p := con_devuelto true P]> (objetos_prestamo w);
     gestores := gestores w;
     reloj := reloj w; lecturas := S (lecturas w); zona := zona w;
     traza := traza w ++ informe ++ [Consola (LogDevuelto (titulo L) (nombre U))] |}.


(** ** Vocabulary of the properties *)

(** Some manager's collection holds a loan of book [b] that has not been
    returned. *)
Definition prestamo_pendiente (w : Mundo) (b : Ref) : Prop :=
  exists g G p P,
    gestores w !! g = Some G /\ p ∈ prestamos G /\
    objetos_prestamo w !! p = Some P /\ libro P = b /\ devuelto P = false.

(** What every world reached by a program satisfies. *)
Record coherente (w : Mundo) : Prop := {
  (* a loan refers to a book and a user that exist *)
  coh_refs : forall p P, objetos_prestamo w !! p = Some P ->
    is_Some (libros w !! libro P) /\ is_Some (usuarios w !! usuario P);
  (* every loan object sits in the collection of some manager *)
  coh_gestionado : forall p, is_Some (objetos_prestamo w !! p) ->
    exists g G, gestores w !! g = Some G /\ p ∈ prestamos G;
  (* a book is available exactly when all its loans have been returned *)
  coh_disponible : forall b L, libros w !! b = Some L ->
    (disponible L = true <->
     forall p P, objetos_prestamo w !! p = Some P -> libro P = b -> devuelto P = true);
  (* a book has at most one loan that has not been returned *)
  coh_unico : forall p p' P P',
    objetos_prestamo w !! p = Some P -> objetos_prestamo w !! p' = Some P' ->
    devuelto P = false -> devuelto P' = false -> libro P = libro P' -> p = p'
}.

(** [aparece c s]: the character [c] occurs in [s]. *)
Fixpoint aparece (c : ascii) (s : string) : bool :=
  match s with
  | EmptyString => false
  | String a s' => Ascii.eqb a c || aparece c s'
  end.

(** [contiene s t]: [t] is a substring of [s]. *)
Definition contiene (s t : string) : Prop :=
  exists antes despues, s = antes +:+ t +:+ despues.

(** The calls of [Notificador.enviar] among some events. *)
Definition es_llamada_enviar (e : Evento) : bool :=
  match e with
  | Llamada_enviar _ _ _ => true
  | Consola _ => false
  end.

Definition llamadas_enviar (es : list Evento) : list Evento :=
  List.filter es_llamada_enviar es.

(** ** Example worlds *)

Definition un_dia : Z := 86400000.

Definition zona_utc : Zona := fun _ _ => 0.

(** A clock that reads [t0] while the loan is made and [t] afterwards. *)
Definition reloj_prestamo (t0 t : Z) (k : nat) : Z :=
  match k with
  | O | S O => t0
  | _ => t
  end.

(** A clock that advances one millisecond between readings. *)
Definition reloj_ms (k : nat) : Z := Z.of_nat k.

(** A notifier whose delivery is refused. *)
Definition NotificadorRechazado : Notificador :=
  {| enviar mensaje destinatario := (false, []) |}.

(** One book, one user and one manager. *)
Definition programa_biblioteca (c : CalculadoraMulta) (n : Notificador) : list Op :=
  [OpNewLibro "1984" "George Orwell" "978-0-452-28423-4";
   OpNewUsuario "Ana García" "U001";
   OpNewGestorPrestamos c n].

(** ... and the book lent to the user. *)
Definition programa_prestamo (c : CalculadoraMulta) (n : Notificador) : list Op :=
  programa_biblioteca c n ++ [OpRealizarPrestamo 0 0 0].

(** ... and returned. *)
Definition programa_devolucion (c : CalculadoraMulta) (n : Notificador) : list Op :=
  programa_prestamo c n ++ [OpDevolverLibro 0 0].

(** The world a program ends in. *)
Definition mundo_de (r : nat -> Z) (z : Zona) (ops : list Op) : Mundo :=
  match ejecutar ops (mundo_inicial r z) with
  | Some (_, w) => w
  | None => mundo_inicial r z
  end.

(** The library before any loan. *)
Definition mundo_biblioteca (r : nat -> Z) (n : Notificador) : Mundo :=
  mundo_de r zona_utc (programa_biblioteca MultaEstandar n).

(** The book on loan since time 0, due at 14 days, with the clock at [t]. *)
Definition mundo_prestado (c : CalculadoraMulta) (t : Z) : Mundo :=
  mundo_de (reloj_prestamo 0 t) zona_utc (programa_prestamo c NotificadorEmail).

(** The book lent and returned. *)
Definition mundo_devuelto : Mundo :=
  mundo_de (reloj_prestamo 0 0) zona_utc
    (programa_devolucion MultaEstandar NotificadorEmail).

(** The book returned, lent again and returned again. *)
Definition programa_ida_y_vuelta : list Op :=
  [OpDevolverLibro 0 0; OpRealizarPrestamo 0 0 0; OpDevolverLibro 0 0].

Definition mundo_ida_y_vuelta : Mundo :=
  mundo_de (reloj_prestamo 0 (3 * un_dia)) zona_utc
    (programa_prestamo MultaEstandar NotificadorEmail ++ programa_ida_y_vuelta).

Definition libro_1984 (disponible : bool) : Libro :=
  {| titulo := "1984"; autor := "George Orwell"; isbn := "978-0-452-28423-4";
     disponible := disponible |}.

Definition usuario_ana : Usuario :=
  {| nombre := "Ana García"; id_usuario := "U001" |}.

Definition prestamo_ana (devuelto : bool) : Prestamo :=
  {| libro := 0%nat; usuario := 0%nat; fecha_prestamo := 0;
     fecha_devolucion := 14 * un_dia; devuelto := devuelto |}.

Definition gestor_unico (c : CalculadoraMulta) (n : Notificador)
    (prestamos : list Ref) : GestorPrestamos :=
  {| calculadora_multa := c; notificador := n; prestamos := prestamos |}.


(** ** More example worlds *)

(** Two books, two users and two managers, as [main] sets them up. *)
Definition programa_dos_gestores : list Op :=
  [OpNewLibro "1984" "George Orwell" "978-0-452-28423-4";
   OpNewLibro "Cien años de soledad" "Gabriel García Márquez" "978-84-376-0494-7";
   OpNewUsuario "Ana García" "U001";
   OpNewUsuario "Carlos López" "U002";
   OpNewGestorPrestamos MultaEstandar NotificadorEmail;
   OpNewGestorPrestamos MultaEstudiante NotificadorSMS].

(** ... with the first book lent to the first user by the first manager at
    time 0, and the clock at [t] afterwards. *)
Definition mundo_dos_gestores (t : Z) : Mundo :=
  mundo_de (reloj_prestamo 0 t) zona_utc
    (programa_dos_gestores ++ [OpRealizarPrestamo 0 0 0]).

Definition libro_cien_anios : Libro :=
  {| titulo := "Cien años de soledad"; autor := "Gabriel García Márquez";
     isbn := "978-84-376-0494-7"; disponible := true |}.

Definition usuario_carlos : Usuario :=
  {| nombre := "Carlos López"; id_usuario := "U002" |}.

(** ... and that loan returned. *)
Definition mundo_dos_gestores_devuelto : Mundo :=
  mundo_de (reloj_prestamo 0 0) zona_utc
    (programa_dos_gestores ++ [OpRealizarPrestamo 0 0 0; OpDevolverLibro 0 0]).

(** ** More vocabulary *)

(** [sigue w w']: the world [w'] keeps what [w] had.  Users are as they
    were; books keep title, author and ISBN; loans keep book, user and loan
    date; managers keep calculator and notifier and their collections are
    extended at the end; the trace is extended; the clock is the same one,
    read further. *)
Record sigue (w w' : Mundo) : Prop := {
  sig_usuarios : forall u U, usuarios w !! u = Some U -> usuarios w' !! u = Some U;
  sig_libros : forall b L, libros w !! b = Some L ->
    exists L', libros w' !! b = Some L' /\
      titulo L' = titulo L /\ autor L' = autor L /\ isbn L' = isbn L;
  sig_prestamos : forall p P, objetos_prestamo w !! p = Some P ->
    exists P', objetos_prestamo w' !! p = Some P' /\
      libro P' = libro P /\ usuario P' = usuario P /\
      fecha_prestamo P' = fecha_prestamo P;
  sig_gestores : forall g G, gestores w !! g = Some G ->
    exists G' nuevos, gestores w' !! g = Some G' /\
      calculadora_multa G' = calculadora_multa G /\
      notificador G' = notificador G /\
      prestamos G' = prestamos G ++ nuevos;
  sig_traza : exists nuevos, traza w' = traza w ++ nuevos;
  sig_reloj : reloj w' = reloj w /\ zona w' = zona w /\
              (lecturas w <= lecturas w')%nat
}.

(** Every reference in a collection denotes a loan object, no collection
    holds a loan twice, and no loan is in the collections of two managers. *)
Record repartido (w : Mundo) : Prop := {
  rep_existe : forall g G q, gestores w !! g = Some G -> q ∈ prestamos G ->
    (q < length (objetos_prestamo w))%nat;
  rep_sin_repetir : forall g G, gestores w !! g = Some G -> NoDup (prestamos G);
  rep_un_gestor : forall g g' G G' q,
    gestores w !! g = Some G -> gestores w !! g' = Some G' ->
    q ∈ prestamos G -> q ∈ prestamos G' -> g = g'
}.

(** A program that builds its managers from the classes of the source file
    only. *)
Definition con_clases_del_programa (o : Op) : Prop :=
  match o with
  | OpNewGestorPrestamos c n =>
      c ∈ [MultaEstandar; MultaEstudiante; MultaVIP] /\
      n ∈ [NotificadorEmail; NotificadorSMS]
  | _ => True
  end.

(** What the classes of the source file can write: a late report carries a
    number of days that is not negative and one of the three fines for it,
    and a call of [enviar] has returned [true]. *)
Definition evento_del_programa (e : Evento) : Prop :=
  match e with
  | Consola (LogRetraso d m) => 0 <= d /\ (m = d * 10 \/ m = d * 5 \/ m = 0)
  | Llamada_enviar _ _ r => r = true
  | Consola _ => True
  end.

(** The managers hold objects of the classes of the source file, and the
    trace holds what those write. *)
Definition del_programa (w : Mundo) : Prop :=
  (forall g G, gestores w !! g = Some G ->
     calculadora_multa G ∈ [MultaEstandar; MultaEstudiante; MultaVIP] /\
     notificador G ∈ [NotificadorEmail; NotificadorSMS]) /\
  Forall evento_del_programa (traza w).

(** The calls of [enviar] recorded so far match the loan objects one for
    one, in order: the [k]-th call was addressed to the name of the user of
    the [k]-th loan, with a message for the title of its book. *)
Definition avisados (w : Mundo) : Prop :=
  length (llamadas_enviar (traza w)) = length (objetos_prestamo w) /\
  forall k e, llamadas_enviar (traza w) !! k = Some e ->
    exists P L U fecha r,
      objetos_prestamo w !! k = Some P /\
      libros w !! libro P = Some L /\ usuarios w !! usuario P = Some U /\
      e = Llamada_enviar (mensaje_prestamo (titulo L) fecha) (nombre U) r.

(** ** The program [main]

    [main] writes lines of its own between the calls it makes; what the
    program writes is the sequence of both, in order. *)
Inductive Salida_main : Type :=
  | Linea_main (texto : string)     (* a [console.log] of [main] *)
  | Del_objeto (e : Evento).        (* what a constructor or method wrote or called *)

Record Programa : Type := {
  mundo : Mundo;
  consola : list Salida_main
}.

Definition Main (A : Type) : Type := Programa -> option (A * Programa).

#[export] Instance Main_ret : MRet Main := fun A x s => Some (x, s).

#[export] Instance Main_bind : MBind Main := fun A B f m s =>
  match m s with
  | Some (x, s') => f x s'
  | None => None
  end.

(** [console.log(texto)] in [main]. *)
Definition console_log_main (texto : string) : Main unit :=
  fun s => Some (tt, {| mundo := mundo s;
                        consola := consola s ++ [Linea_main texto] |}).

(** A constructor or method called from [main]: the events it adds to the
    trace of the world appear on the program's output in the same order. *)
Definition usar {A : Type} (m : M A) : Main A :=
  fun s =>
    match m (mundo s) with
    | Some (x, w') =>
        Some (x, {| mundo := w';
                    consola := consola s
                      ++ map Del_objeto (drop (length (traza (mundo s))) (traza w')) |})
    | None => None
    end.

(** [String.prototype.repeat] *)
Fixpoint repetir (s : string) (n : nat) : string :=
  match n with
  | O => EmptyString
  | S n' => s +:+ repetir s n'
  end.

(** The line feed of the string literals. *)
Definition salto : string := String "010"%char EmptyString.

Definition main : Main unit :=
  console_log_main "🏛️  SISTEMA DE BIBLIOTECA - PRINCIPIOS SOLID";;
  console_log_main (repetir "=" 50);;
  libro1 ← usar (new_Libro "1984" "George Orwell" "978-0-452-28423-4");
  libro2 ← usar (new_Libro "Cien años de soledad" "Gabriel García Márquez"
                   "978-84-376-0494-7");
  usuario1 ← usar (new_Usuario "Ana García" "U001");
  usuario2 ← usar (new_Usuario "Carlos López" "U002");
  console_log_main (salto +:+ "📋 GESTOR PARA USUARIOS REGULARES:");;
  gestor_regular ← usar (new_GestorPrestamos MultaEstandar NotificadorEmail);
  console_log_main (salto +:+ "📋 GESTOR PARA ESTUDIANTES:");;
  gestor_estudiante ← usar (new_GestorPrestamos MultaEstudiante NotificadorSMS);
  console_log_main (salto +:+ "🔄 REALIZANDO PRÉSTAMOS:");;
  prestamo1 ← usar (realizar_prestamo gestor_regular libro1 usuario1);
  prestamo2 ← usar (realizar_prestamo gestor_estudiante libro2 usuario2);
  console_log_main (salto +:+ "📅 SIMULANDO DEVOLUCIÓN TARDÍA:");;
  match prestamo1 with
  | Some prestamo1 =>
      ahora ← usar new_Date;
      usar (escribir_prestamo prestamo1
              (con_fecha_devolucion (getTime ahora - 3 * 24 * 60 * 60 * 1000)));;
      usar (devolver_libro gestor_regular prestamo1)
  | None => mret tt
  end;;
  console_log_main (salto +:+ "📅 DEVOLUCIÓN A TIEMPO:");;
  match prestamo2 with
  | Some prestamo2 => usar (devolver_libro gestor_estudiante prestamo2)
  | None => mret tt
  end.

(** The program started on a machine with clock [r] and time zone [z]. *)
Definition arranque (r : nat -> Z) (z : Zona) : Programa :=
  {| mundo := mundo_inicial r z; consola := [] |}.

(** * Properties *)

(** ** Dates *)

Lemma anio_de_era_rango doe :
  0 <= doe < 146097 ->
  let yoe := (doe - doe / 1460 + doe / 36524 - doe / 146096) / 365 in
  let doy := doe - (365 * yoe + yoe / 4 - yoe / 100) in
  0 <= yoe <= 399 /\ 0 <= doy <= 365.
Proof. intros H yoe doy. subst doy yoe. Z.div_mod_to_equations. lia. Qed.

Lemma civil_de_dia_rango z :
  0 <= mes (civil_de_dia z) <= 11 /\ 1 <= dia (civil_de_dia z) <= 31.
Proof.
  unfold civil_de_dia; cbn [mes dia].
  set (doe := (z + 719468) mod 146097).
  assert (Hdoe : 0 <= doe < 146097) by (apply Z.mod_pos_bound; lia).
  clearbody doe.
  destruct (anio_de_era_rango doe Hdoe) as [Hy Hd]. cbv zeta in Hy, Hd.
  set (yoe := (doe - doe / 1460 + doe / 36524 - doe / 146096) / 365) in *.
  clearbody yoe.
  set (doy := doe - (365 * yoe + yoe / 4 - yoe / 100)) in *.
  clearbody doy.
  destruct (Z.ltb_spec ((5 * doy + 2) / 153) 10); Z.div_mod_to_equations; lia.
Qed.

(** The two calendar conversions are inverse to each other on day numbers. *)
Lemma dia_de_civil_de_dia z :
  dia_de_civil (anio (civil_de_dia z)) (mes (civil_de_dia z)) (dia (civil_de_dia z)) = z.
Proof.
  unfold civil_de_dia; cbn [anio mes dia].
  set (era := (z + 719468) / 146097).
  set (doe := (z + 719468) mod 146097).
  assert (Hz : z = era * 146097 + doe - 719468).
  { subst era doe. pose proof (Z.div_mod (z + 719468) 146097). lia. }
  assert (Hdoe : 0 <= doe < 146097) by (apply Z.mod_pos_bound; lia).
  clearbody era doe.
  destruct (anio_de_era_rango doe Hdoe) as [Hy Hd]. cbv zeta in Hy, Hd.
  set (yoe := (doe - doe / 1460 + doe / 36524 - doe / 146096) / 365) in *.
  clearbody yoe.
  set (doy := doe - (365 * yoe + yoe / 4 - yoe / 100)) in *.
  assert (Hdoy : doe = yoe * 365 + yoe / 4 - yoe / 100 + doy) by (subst doy; lia).
  clearbody doy.
  set (mp := (5 * doy + 2) / 153).
  assert (Hmp : 0 <= mp <= 11) by (subst mp; Z.div_mod_to_equations; lia).
  clearbody mp.
  unfold dia_de_civil.
  destruct (Z.ltb_spec mp 10) as [Hlt|Hge].
  - replace (mp + 2 <? 2) with false by (symmetry; apply Z.ltb_ge; lia).
    replace (mp + 2 - 2) with mp by lia.
    replace (yoe + era * 400 + 0) with (yoe + era * 400) by lia.
    rewrite Z.div_add, Z.mod_add by lia.
    rewrite Z.div_small, Z.mod_small by lia. lia.
  - replace (mp - 10 <? 2) with true by (symmetry; apply Z.ltb_lt; lia).
    replace (mp - 10 + 10) with mp by lia.
    replace (yoe + era * 400 + 1 - 1) with (yoe + era * 400) by lia.
    rewrite Z.div_add, Z.mod_add by lia.
    rewrite Z.div_small, Z.mod_small by lia. lia.
Qed.

(** The day number of a civil date, by the tables of ECMA-262: first day of
    the year, first day of the month within the year, day of the month. *)
Lemma dia_de_civil_tabla y m d :
  0 <= m <= 11 ->
  dia_de_civil y m d = DayFromYear y + inicio_mes (anio_bisiesto y) m + d - 1.
Proof.
  intros Hm. unfold dia_de_civil, DayFromYear, anio_bisiesto.
  assert (m = 0 \/ m = 1 \/ m = 2 \/ m = 3 \/ m = 4 \/ m = 5 \/ m = 6 \/ m = 7
          \/ m = 8 \/ m = 9 \/ m = 10 \/ m = 11) as Hc by lia.
  repeat (destruct Hc as [-> | Hc]); try subst m;
    cbn [Z.ltb Z.compare Pos.compare Pos.compare_cont Z.add Z.sub Z.opp Pos.add
         Z.pos_sub inicio_mes];
    destruct (Z.eqb_spec (y mod 4) 0), (Z.eqb_spec (y mod 100) 0),
      (Z.eqb_spec (y mod 400) 0);
    cbn [andb orb negb]; Z.div_mod_to_equations; lia.
Qed.

Lemma DayFromYear_siguiente y :
  DayFromYear (y + 1) = DayFromYear y + 365 + (if anio_bisiesto y then 1 else 0).
Proof.
  unfold DayFromYear, anio_bisiesto.
  destruct (Z.eqb_spec (y mod 4) 0), (Z.eqb_spec (y mod 100) 0),
    (Z.eqb_spec (y mod 400) 0);
    cbn [andb orb negb]; Z.div_mod_to_equations; lia.
Qed.

(** The civil date of a day number is the one ECMA-262 tabulates: the month
    is in range, the day is a day of that month, and counting from the first
    day of the year gives the day number back. *)
Lemma civil_de_dia_correcto z :
  let c := civil_de_dia z in
  let b := anio_bisiesto (anio c) in
  0 <= mes c <= 11 /\
  1 <= dia c <= dias_del_mes b (mes c) /\
  z = DayFromYear (anio c) + inicio_mes b (mes c) + dia c - 1.
Proof.
  cbv zeta.
  pose proof (dia_de_civil_de_dia z) as Hr.
  pose proof (civil_de_dia_rango z) as [Hm Hd].
  rewrite dia_de_civil_tabla in Hr by exact Hm.
  split; [exact Hm|]. split; [|lia]. split; [lia|].
  clear Hr. revert Hm Hd. unfold civil_de_dia; cbn [anio mes dia].
  set (era := (z + 719468) / 146097).
  set (doe := (z + 719468) mod 146097).
  assert (Hdoe : 0 <= doe < 146097) by (apply Z.mod_pos_bound; lia).
  clearbody era doe.
  pose proof (anio_de_era_rango doe Hdoe) as [Hy Hdy]. cbv zeta in Hy, Hdy.
  assert (Hb : let yoe := (doe - doe / 1460 + doe / 36524 - doe / 146096) / 365 in
               let doy := doe - (365 * yoe + yoe / 4 - yoe / 100) in
               doy = 365 ->
               ((yoe + 1) mod 4 = 0 /\ (yoe + 1) mod 100 <> 0) \/ (yoe + 1) mod 400 = 0).
  { cbv zeta. Z.div_mod_to_equations. lia. }
  cbv zeta in Hb.
  set (yoe := (doe - doe / 1460 + doe / 36524 - doe / 146096) / 365) in *.
  clearbody yoe.
  set (doy := doe - (365 * yoe + yoe / 4 - yoe / 100)) in *.
  clearbody doy.
  set (mp := (5 * doy + 2) / 153).
  assert (Hmp : 0 <= mp <= 11 /\ 153 * mp <= 5 * doy + 2 < 153 * mp + 153)
    by (subst mp; Z.div_mod_to_equations; lia).
  clearbody mp.
  assert (mp = 0 \/ mp = 1 \/ mp = 2 \/ mp = 3 \/ mp = 4 \/ mp = 5 \/ mp = 6
          \/ mp = 7 \/ mp = 8 \/ mp = 9 \/ mp = 10 \/ mp = 11) as Hc by lia.
  repeat (destruct Hc as [-> | Hc]); try subst mp;
    cbn [Z.ltb Z.compare Pos.compare Pos.compare_cont Z.add Z.sub Z.opp Pos.add
         Z.pos_sub];
    intros _ _;
    match goal with
    | |- context [dias_del_mes ?b ?m] =>
        let m' := eval vm_compute in m in change m with m'
    end;
    try (cbn [dias_del_mes]; Z.div_mod_to_equations; lia).
  change (1 <? 2) with true. cbv iota. cbn [dias_del_mes]. unfold anio_bisiesto.
  destruct (Z.eqb_spec ((yoe + era * 400 + 1) mod 4) 0),
    (Z.eqb_spec ((yoe + era * 400 + 1) mod 100) 0),
    (Z.eqb_spec ((yoe + era * 400 + 1) mod 400) 0);
    cbn [andb orb negb]; Z.div_mod_to_equations; lia.
Qed.

(** [MonthFromTime] and [DateFromTime] as ECMA-262 tabulates them: the day
    within the year falls in the month, and the date counts from its first
    day. *)
Lemma MonthFromTime_DateFromTime_correcto t :
  let DayWithinYear := Day t - DayFromYear (YearFromTime t) in
  let b := anio_bisiesto (YearFromTime t) in
  0 <= MonthFromTime t <= 11 /\
  inicio_mes b (MonthFromTime t) <= DayWithinYear
    < inicio_mes b (MonthFromTime t) + dias_del_mes b (MonthFromTime t) /\
  DateFromTime t = DayWithinYear - inicio_mes b (MonthFromTime t) + 1.
Proof.
  cbv zeta. unfold YearFromTime, MonthFromTime, DateFromTime.
  pose proof (civil_de_dia_correcto (Day t)) as H. cbv zeta in H. lia.
Qed.

Lemma inicio_mes_rango b m :
  0 <= m <= 11 ->
  0 <= inicio_mes b m /\
  inicio_mes b m + dias_del_mes b m <= 365 + (if b then 1 else 0).
Proof.
  intros Hm.
  assert (m = 0 \/ m = 1 \/ m = 2 \/ m = 3 \/ m = 4 \/ m = 5 \/ m = 6 \/ m = 7
          \/ m = 8 \/ m = 9 \/ m = 10 \/ m = 11) as Hc by lia.
  repeat (destruct Hc as [-> | Hc]); try subst m; destruct b; cbn; lia.
Qed.

(** [YearFromTime(t)] is the year that contains [t]: ECMA-262 defines it as
    the largest [y] with [TimeFromYear(y) <= t]. *)
Lemma YearFromTime_correcto t :
  DayFromYear (YearFromTime t) <= Day t < DayFromYear (YearFromTime t + 1).
Proof.
  unfold YearFromTime. rewrite DayFromYear_siguiente.
  pose proof (civil_de_dia_correcto (Day t)) as (Hm & Hd & Hz). cbv zeta in *.
  pose proof (inicio_mes_rango
                (anio_bisiesto (anio (civil_de_dia (Day t)))) _ Hm).
  lia.
Qed.

(** [MakeDay] on the year and month of [t] counts days from the day of [t]. *)
Lemma MakeDay_DateFromTime t n :
  MakeDay (YearFromTime t) (MonthFromTime t) (DateFromTime t + n) = Day t + n.
Proof.
  unfold MakeDay, YearFromTime, MonthFromTime, DateFromTime.
  pose proof (civil_de_dia_rango (Day t)) as [Hm _].
  pose proof (dia_de_civil_de_dia (Day t)) as Hr.
  rewrite Z.div_small, Z.mod_small, Z.add_0_r by lia.
  unfold dia_de_civil in *. lia.
Qed.

Lemma MakeDate_Day t : MakeDate (Day t) (TimeWithinDay t) = t.
Proof.
  unfold MakeDate, Day, TimeWithinDay.
  pose proof (Z.div_mod t msPerDay). unfold msPerDay in *. lia.
Qed.

(** [d.setDate(d.getDate() + n)] moves the local time [n] days ahead. *)
Lemma setDate_getDate zona tv n :
  setDate zona tv (getDate zona tv + n) = UTC zona (LocalTime zona tv + n * msPerDay).
Proof.
  unfold setDate, getDate. rewrite MakeDay_DateFromTime. f_equal.
  pose proof (MakeDate_Day (LocalTime zona tv)) as H.
  unfold MakeDate in *. lia.
Qed.

(** Where the offset from UTC is the same at both ends, that is [n] days of
    24 hours. *)
Lemma setDate_getDate_mismo_desfase zona tv n :
  zona (LocalTime zona tv + n * msPerDay) false = zona tv true ->
  setDate zona tv (getDate zona tv + n) = tv + n * msPerDay.
Proof.
  intros H. rewrite setDate_getDate. unfold UTC. rewrite H.
  unfold LocalTime. lia.
Qed.

(** ** Strings *)

Lemma append_asociativa (a b c : string) : (a +:+ b) +:+ c = a +:+ (b +:+ c).
Proof.
  induction a as [|x a IH]; [reflexivity|].
  change (String x ((a +:+ b) +:+ c) = String x (a +:+ (b +:+ c))).
  rewrite IH. reflexivity.
Qed.

Lemma aparece_append c a b : aparece c (a +:+ b) = aparece c a || aparece c b.
Proof.
  induction a as [|x a IH]; [reflexivity|].
  change (aparece c (String x a +:+ b)) with (Ascii.eqb x c || aparece c (a +:+ b)).
  rewrite IH, orb_assoc. reflexivity.
Qed.

Lemma digito_no_T d : Ascii.eqb (digito d) "T" = false.
Proof.
  unfold digito. generalize (Z.to_nat d). intros n.
  do 10 (destruct n as [|n]; [reflexivity|]).
  destruct n; reflexivity.
Qed.

Lemma digitos_sin_T n z : aparece "T" (digitos n z) = false.
Proof.
  revert z. induction n as [|n IH]; intros z; cbn [digitos]; [reflexivity|].
  rewrite aparece_append, IH.
  change (aparece "T" (String (digito (z mod 10)) EmptyString))
    with (Ascii.eqb (digito (z mod 10)) "T" || false).
  rewrite digito_no_T. reflexivity.
Qed.

Lemma fecha_iso_sin_T tv : aparece "T" (fecha_iso tv) = false.
Proof.
  unfold fecha_iso, anio_iso.
  rewrite !aparece_append, !digitos_sin_T.
  destruct (_ && _); [rewrite digitos_sin_T; reflexivity|].
  rewrite aparece_append, digitos_sin_T. destruct (_ <? _); reflexivity.
Qed.

Lemma split_hasta_separador c a b :
  aparece c a = false -> split c (a +:+ String c b) = a :: split c b.
Proof.
  induction a as [|x a IH]; intros H.
  - change (EmptyString +:+ String c b) with (String c b).
    cbn [split]. rewrite Ascii.eqb_refl. reflexivity.
  - cbn in H. apply orb_false_iff in H as [Hx Ha].
    change (split c (String x a +:+ String c b))
      with (if Ascii.eqb x c then EmptyString :: split c (a +:+ String c b)
            else match split c (a +:+ String c b) with
                 | [] => [String x EmptyString]
                 | y :: r => String x y :: r
                 end).
    rewrite Hx, (IH Ha). reflexivity.
Qed.

(** [d.toISOString().split("T")[0]] is the date part, [YYYY-MM-DD]. *)
Lemma fecha_de_toISOString tv :
  elemento (split "T" (toISOString tv)) 0 = fecha_iso tv.
Proof.
  unfold toISOString.
  change (fecha_iso tv +:+ "T" +:+ hora_iso tv)
    with (fecha_iso tv +:+ String "T" (hora_iso tv)).
  rewrite split_hasta_separador by apply fecha_iso_sin_T. reflexivity.
Qed.

Lemma longitud_append (a b : string) :
  String.length (a +:+ b) = (String.length a + String.length b)%nat.
Proof.
  induction a as [|x a IH]; [reflexivity|].
  change (S (String.length (a +:+ b)) = S (String.length a + String.length b)).
  rewrite IH. reflexivity.
Qed.

Lemma longitud_digitos n z : String.length (digitos n z) = n.
Proof.
  revert z. induction n as [|n IH]; intros z; cbn [digitos]; [reflexivity|].
  rewrite longitud_append, IH. cbn. lia.
Qed.

(** In the years 0 to 9999 the date part has the ten characters of
    [YYYY-MM-DD]. *)
Lemma longitud_fecha_iso tv :
  0 <= YearFromTime tv <= 9999 -> String.length (fecha_iso tv) = 10%nat.
Proof.
  intros H. unfold fecha_iso, anio_iso.
  replace ((0 <=? YearFromTime tv) && (YearFromTime tv <=? 9999)) with true
    by (symmetry; apply andb_true_iff; split; apply Z.leb_le; lia).
  rewrite !longitud_append, !longitud_digitos. reflexivity.
Qed.

Lemma mensaje_prestamo_eq titulo fecha_devolucion :
  mensaje_prestamo titulo fecha_devolucion
  = "Has prestado '" +:+ titulo +:+ "'. Fecha de devolución: "
      +:+ fecha_iso fecha_devolucion.
Proof. unfold mensaje_prestamo. rewrite fecha_de_toISOString. reflexivity. Qed.

Lemma llamadas_enviar_consola ls : llamadas_enviar (map Consola ls) = [].
Proof. induction ls as [|l ls IH]; [reflexivity|exact IH]. Qed.

(** ** Running computations *)

Lemma bind_M {A B : Type} (m : M A) (f : A -> M B) (w : Mundo) :
  (m ≫= f) w = match m w with Some (x, w') => f x w' | None => None end.
Proof. reflexivity. Qed.

Lemma bind_M_Some {A B : Type} (m : M A) (f : A -> M B) (w w' : Mundo) (x : A) :
  m w = Some (x, w') -> (m ≫= f) w = f x w'.
Proof. intros H. rewrite bind_M, H. reflexivity. Qed.

Lemma leer_libro_Some r w l :
  libros w !! r = Some l -> leer_libro r w = Some (l, w).
Proof. intros H. unfold leer_libro. rewrite bind_M. cbn. rewrite H. reflexivity. Qed.

Lemma leer_usuario_Some r w u :
  usuarios w !! r = Some u -> leer_usuario r w = Some (u, w).
Proof. intros H. unfold leer_usuario. rewrite bind_M. cbn. rewrite H. reflexivity. Qed.

Lemma leer_prestamo_Some r w p :
  objetos_prestamo w !! r = Some p -> leer_prestamo r w = Some (p, w).
Proof. intros H. unfold leer_prestamo. rewrite bind_M. cbn. rewrite H. reflexivity. Qed.

Lemma leer_gestor_Some r w g :
  gestores w !! r = Some g -> leer_gestor r w = Some (g, w).
Proof. intros H. unfold leer_gestor. rewrite bind_M. cbn. rewrite H. reflexivity. Qed.

Lemma escribir_libro_Some r f w l :
  libros w !! r = Some l ->
  escribir_libro r f w = Some (tt, con_libros (<[r := f l]>) w).
Proof.
  intros H. unfold escribir_libro.
  rewrite (bind_M_Some _ _ _ _ _ (leer_libro_Some _ _ _ H)). reflexivity.
Qed.

Lemma escribir_prestamo_Some r f w p :
  objetos_prestamo w !! r = Some p ->
  escribir_prestamo r f w = Some (tt, con_objetos_prestamo (<[r := f p]>) w).
Proof.
  intros H. unfold escribir_prestamo.
  rewrite (bind_M_Some _ _ _ _ _ (leer_prestamo_Some _ _ _ H)). reflexivity.
Qed.

Lemma escribir_gestor_Some r f w g :
  gestores w !! r = Some g ->
  escribir_gestor r f w = Some (tt, con_gestores (<[r := f g]>) w).
Proof.
  intros H. unfold escribir_gestor.
  rewrite (bind_M_Some _ _ _ _ _ (leer_gestor_Some _ _ _ H)). reflexivity.
Qed.

Lemma new_Prestamo_eq b u w :
  new_Prestamo b u w
  = Some (length (objetos_prestamo w),
          con_objetos_prestamo (fun ps => ps ++ [prestamo_nuevo w b u])
            (con_lecturas (S (S (lecturas w))) w)).
Proof. reflexivity. Qed.

Lemma llamar_enviar_eq n mensaje destinatario w :
  llamar_enviar n mensaje destinatario w
  = Some (fst (enviar n mensaje destinatario),
          con_traza (fun t => t ++ map Consola (snd (enviar n mensaje destinatario))
                                ++ [Llamada_enviar mensaje destinatario
                                      (fst (enviar n mensaje destinatario))]) w).
Proof.
  unfold llamar_enviar, ejecutar_salida, modificar, con_traza.
  cbv [mbind mret M_bind M_ret]. cbn [traza libros usuarios objetos_prestamo
    gestores reloj lecturas zona].
  rewrite <- app_assoc. reflexivity.
Qed.

Lemma ejecutar_salida_eq {A : Type} (s : Salida A) w :
  ejecutar_salida s w = Some (fst s, con_traza (fun t => t ++ map Consola (snd s)) w).
Proof. reflexivity. Qed.

Lemma new_Date_eq w :
  new_Date w = Some (reloj w (lecturas w), con_lecturas (S (lecturas w)) w).
Proof. reflexivity. Qed.

Lemma console_log_eq l w :
  console_log l w = Some (tt, con_traza (fun t => t ++ [Consola l]) w).
Proof. reflexivity. Qed.

Ltac simpl_mundo :=
  unfold con_libros, con_usuarios, con_objetos_prestamo, con_gestores,
    con_lecturas, con_traza;
  cbn [libros usuarios objetos_prestamo gestores reloj lecturas zona traza
       calculadora_multa notificador prestamos con_prestamos
       titulo autor isbn disponible con_disponible nombre id_usuario
       libro usuario fecha_prestamo fecha_devolucion devuelto
       con_devuelto con_fecha_devolucion fst snd].

Lemma lookup_nuevo {A : Type} (l : list A) (x : A) :
  (l ++ [x]) !! length l = Some x.
Proof. rewrite lookup_app_r by lia. rewrite Nat.sub_diag. reflexivity. Qed.

Lemma lookup_insert_mismo {A : Type} (l : list A) (i : nat) (x y : A) :
  l !! i = Some x -> <[i := y]> l !! i = Some y.
Proof. intros H. apply list_lookup_insert_eq. eapply lookup_lt_Some, H. Qed.

(** ** The two methods, case by case *)

Lemma realizar_prestamo_no_disponible this b u w L :
  libros w !! b = Some L -> disponible L = false ->
  realizar_prestamo this b u w = Some (None, mundo_tras_rechazo L w).
Proof.
  intros Hb Hd. unfold realizar_prestamo.
  rewrite (bind_M_Some _ _ _ _ _ (leer_libro_Some _ _ _ Hb)), Hd.
  reflexivity.
Qed.

Lemma realizar_prestamo_disponible this b u w L U G :
  libros w !! b = Some L -> disponible L = true ->
  usuarios w !! u = Some U -> gestores w !! this = Some G ->
  realizar_prestamo this b u w
  = Some (Some (length (objetos_prestamo w)), mundo_tras_prestamo this b u L U G w).
Proof.
  intros Hb Hd Hu Hg.
  unfold realizar_prestamo.
  rewrite (bind_M_Some _ _ _ _ _ (leer_libro_Some _ _ _ Hb)), Hd. cbn [negb].
  rewrite (bind_M_Some _ _ _ _ _ (escribir_libro_Some _ _ _ _ Hb)).
  rewrite (bind_M_Some _ _ _ _ _ (new_Prestamo_eq _ _ _)).
  erewrite bind_M_Some by (apply escribir_gestor_Some; exact Hg).
  erewrite bind_M_Some by (apply leer_prestamo_Some; simpl_mundo; apply lookup_nuevo).
  erewrite bind_M_Some
    by (apply leer_gestor_Some; simpl_mundo; eapply lookup_insert_mismo, Hg).
  erewrite bind_M_Some by (apply leer_usuario_Some; exact Hu).
  rewrite (bind_M_Some _ _ _ _ _ (llamar_enviar_eq _ _ _ _)).
  rewrite (bind_M_Some _ _ _ _ _ (console_log_eq _ _)).
  unfold mundo_tras_prestamo, eventos_prestamo, prestamo_nuevo. simpl_mundo.
  rewrite <- !app_assoc. reflexivity.
Qed.

Lemma devolver_libro_ya_devuelto this p w P :
  objetos_prestamo w !! p = Some P -> devuelto P = true ->
  devolver_libro this p w = Some (tt, mundo_tras_ya_devuelto w).
Proof.
  intros Hp Hd. unfold devolver_libro.
  rewrite (bind_M_Some _ _ _ _ _ (leer_prestamo_Some _ _ _ Hp)), Hd.
  reflexivity.
Qed.

Lemma devolver_libro_a_tiempo this p w P L U :
  objetos_prestamo w !! p = Some P -> devuelto P = false ->
  reloj w (lecturas w) <= fecha_devolucion P ->
  libros w !! libro P = Some L -> usuarios w !! usuario P = Some U ->
  devolver_libro this p w
  = Some (tt, mundo_tras_devolucion p P L U [Consola LogATiempo] w).
Proof.
  intros Hp Hd Ht Hl Hu. unfold devolver_libro.
  rewrite (bind_M_Some _ _ _ _ _ (leer_prestamo_Some _ _ _ Hp)), Hd.
  rewrite (bind_M_Some _ _ _ _ _ (new_Date_eq _)).
  replace (fecha_devolucion P <? reloj w (lecturas w)) with false
    by (symmetry; apply Z.ltb_ge; exact Ht).
  rewrite (bind_M_Some _ _ _ _ _ (console_log_eq _ _)).
  erewrite bind_M_Some by (apply escribir_prestamo_Some; exact Hp).
  erewrite bind_M_Some by (apply escribir_libro_Some; exact Hl).
  erewrite bind_M_Some
    by (apply leer_libro_Some; simpl_mundo; eapply lookup_insert_mismo, Hl).
  erewrite bind_M_Some by (apply leer_usuario_Some; exact Hu).
  rewrite console_log_eq. unfold mundo_tras_devolucion. simpl_mundo.
  rewrite <- !app_assoc. reflexivity.
Qed.

Lemma devolver_libro_tarde this p w P L U G :
  objetos_prestamo w !! p = Some P -> devuelto P = false ->
  fecha_devolucion P < reloj w (lecturas w) ->
  libros w !! libro P = Some L -> usuarios w !! usuario P = Some U ->
  gestores w !! this = Some G ->
  devolver_libro this p w
  = Some (tt, mundo_tras_devolucion p P L U
                (informe_tarde G (fecha_devolucion P) (reloj w (lecturas w))) w).
Proof.
  intros Hp Hd Ht Hl Hu Hg. unfold devolver_libro.
  rewrite (bind_M_Some _ _ _ _ _ (leer_prestamo_Some _ _ _ Hp)), Hd.
  rewrite (bind_M_Some _ _ _ _ _ (new_Date_eq _)).
  replace (fecha_devolucion P <? reloj w (lecturas w)) with true
    by (symmetry; apply Z.ltb_lt; exact Ht).
  rewrite (bind_M (_ ≫= _)).
  erewrite (bind_M_Some (leer_gestor this)) by (apply leer_gestor_Some; exact Hg).
  rewrite (bind_M_Some _ _ _ _ _ (ejecutar_salida_eq _ _)).
  rewrite console_log_eq.
  erewrite bind_M_Some by (apply escribir_prestamo_Some; exact Hp).
  erewrite bind_M_Some by (apply escribir_libro_Some; exact Hl).
  erewrite bind_M_Some
    by (apply leer_libro_Some; simpl_mundo; eapply lookup_insert_mismo, Hl).
  erewrite bind_M_Some by (apply leer_usuario_Some; exact Hu).
  rewrite console_log_eq.
  unfold mundo_tras_devolucion, informe_tarde, getTime. simpl_mundo.
  rewrite <- !app_assoc. reflexivity.
Qed.

(** ** A method that returns has found every object it used *)

Lemma bind_M_None {A B : Type} (m : M A) (f : A -> M B) (w : Mundo) :
  m w = None -> (m ≫= f) w = None.
Proof. intros H. rewrite bind_M, H. reflexivity. Qed.

Lemma leer_libro_None r w : libros w !! r = None -> leer_libro r w = None.
Proof. intros H. unfold leer_libro. rewrite bind_M. cbn. rewrite H. reflexivity. Qed.

Lemma leer_usuario_None r w : usuarios w !! r = None -> leer_usuario r w = None.
Proof. intros H. unfold leer_usuario. rewrite bind_M. cbn. rewrite H. reflexivity. Qed.

Lemma leer_prestamo_None r w :
  objetos_prestamo w !! r = None -> leer_prestamo r w = None.
Proof. intros H. unfold leer_prestamo. rewrite bind_M. cbn. rewrite H. reflexivity. Qed.

Lemma leer_gestor_None r w : gestores w !! r = None -> leer_gestor r w = None.
Proof. intros H. unfold leer_gestor. rewrite bind_M. cbn. rewrite H. reflexivity. Qed.

Lemma escribir_libro_None r f w :
  libros w !! r = None -> escribir_libro r f w = None.
Proof. intros H. apply bind_M_None, leer_libro_None, H. Qed.

Lemma escribir_prestamo_None r f w :
  objetos_prestamo w !! r = None -> escribir_prestamo r f w = None.
Proof. intros H. apply bind_M_None, leer_prestamo_None, H. Qed.

Lemma escribir_gestor_None r f w :
  gestores w !! r = None -> escribir_gestor r f w = None.
Proof. intros H. apply bind_M_None, leer_gestor_None, H. Qed.

Lemma realizar_prestamo_inv this b u w r w' :
  realizar_prestamo this b u w = Some (r, w') ->
  exists L, libros w !! b = Some L /\
    ((disponible L = false /\ r = None /\ w' = mundo_tras_rechazo L w)
     \/ (disponible L = true /\
         exists U G, usuarios w !! u = Some U /\ gestores w !! this = Some G /\
           r = Some (length (objetos_prestamo w)) /\
           w' = mundo_tras_prestamo this b u L U G w)).
Proof.
  intros H. destruct (libros w !! b) as [L|] eqn:Hb.
  2: { unfold realizar_prestamo in H.
       rewrite (bind_M_None _ _ _ (leer_libro_None _ _ Hb)) in H. discriminate. }
  exists L. split; [reflexivity|]. destruct (disponible L) eqn:Hd.
  - right. split; [reflexivity|].
    destruct (gestores w !! this) as [G|] eqn:Hg.
    + destruct (usuarios w !! u) as [U|] eqn:Hu.
      * rewrite (realizar_prestamo_disponible _ _ _ _ _ _ _ Hb Hd Hu Hg) in H.
        injection H as <- <-. exists U, G. repeat split; reflexivity.
      * exfalso. unfold realizar_prestamo in H.
        rewrite (bind_M_Some _ _ _ _ _ (leer_libro_Some _ _ _ Hb)), Hd in H.
        cbn [negb] in H.
        rewrite (bind_M_Some _ _ _ _ _ (escribir_libro_Some _ _ _ _ Hb)) in H.
        rewrite (bind_M_Some _ _ _ _ _ (new_Prestamo_eq _ _ _)) in H.
        erewrite bind_M_Some in H by (apply escribir_gestor_Some; exact Hg).
        erewrite bind_M_Some in H
          by (apply leer_prestamo_Some; simpl_mundo; apply lookup_nuevo).
        erewrite bind_M_Some in H
          by (apply leer_gestor_Some; simpl_mundo; eapply lookup_insert_mismo, Hg).
        rewrite bind_M_None in H by (apply leer_usuario_None; exact Hu).
        discriminate.
    + exfalso. unfold realizar_prestamo in H.
      rewrite (bind_M_Some _ _ _ _ _ (leer_libro_Some _ _ _ Hb)), Hd in H.
      cbn [negb] in H.
      rewrite (bind_M_Some _ _ _ _ _ (escribir_libro_Some _ _ _ _ Hb)) in H.
      rewrite (bind_M_Some _ _ _ _ _ (new_Prestamo_eq _ _ _)) in H.
      rewrite bind_M_None in H by (apply escribir_gestor_None; exact Hg).
      discriminate.
  - left. rewrite (realizar_prestamo_no_disponible _ _ _ _ _ Hb Hd) in H.
    injection H as <- <-. repeat split; reflexivity.
Qed.

Lemma devolver_libro_inv this p w w' :
  devolver_libro this p w = Some (tt, w') ->
  exists P, objetos_prestamo w !! p = Some P /\
    ((devuelto P = true /\ w' = mundo_tras_ya_devuelto w)
     \/ (devuelto P = false /\
         exists L U informe,
           libros w !! libro P = Some L /\ usuarios w !! usuario P = Some U /\
           w' = mundo_tras_devolucion p P L U informe w /\
           ((reloj w (lecturas w) <= fecha_devolucion P
             /\ informe = [Consola LogATiempo])
            \/ (fecha_devolucion P < reloj w (lecturas w) /\
                exists G, gestores w !! this = Some G /\
                  informe = informe_tarde G (fecha_devolucion P)
                              (reloj w (lecturas w)))))).
Proof.
  intros H. destruct (objetos_prestamo w !! p) as [P|] eqn:Hp.
  2: { unfold devolver_libro in H.
       rewrite (bind_M_None _ _ _ (leer_prestamo_None _ _ Hp)) in H. discriminate. }
  exists P. split; [reflexivity|]. destruct (devuelto P) eqn:Hd.
  { left. rewrite (devolver_libro_ya_devuelto _ _ _ _ Hp Hd) in H.
    injection H as <-. split; reflexivity. }
  right. split; [reflexivity|].
  assert (Hpaso : forall (m : M unit) w1,
             m (con_lecturas (S (lecturas w)) w) = Some (tt, w1) ->
             libros w1 = libros w -> usuarios w1 = usuarios w ->
             objetos_prestamo w1 = objetos_prestamo w ->
             (libros w !! libro P = None \/ usuarios w !! usuario P = None) ->
             (m;; escribir_prestamo p (con_devuelto true);;
              escribir_libro (libro P) (con_disponible true);;
              l ← leer_libro (libro P);
              u ← leer_usuario (usuario P);
              console_log (LogDevuelto (titulo l) (nombre u)))
               (con_lecturas (S (lecturas w)) w) = None).
  { intros m w1 Hm Hl1 Hu1 Hp1 Hno.
    rewrite (bind_M_Some _ _ _ _ _ Hm).
    erewrite bind_M_Some by (apply escribir_prestamo_Some; rewrite Hp1; exact Hp).
    destruct (libros w !! libro P) as [L|] eqn:Hl.
    - destruct Hno as [Hno|Hno]; [discriminate|].
      erewrite bind_M_Some
        by (apply escribir_libro_Some; simpl_mundo; rewrite Hl1; exact Hl).
      erewrite bind_M_Some
        by (apply leer_libro_Some; simpl_mundo; rewrite Hl1;
            eapply lookup_insert_mismo, Hl).
      apply bind_M_None, leer_usuario_None. simpl_mundo. rewrite Hu1. exact Hno.
    - apply bind_M_None, escribir_libro_None. simpl_mundo. rewrite Hl1. exact Hl. }
  destruct (Z.ltb_spec (fecha_devolucion P) (reloj w (lecturas w))) as [Ht|Ht].
  - destruct (gestores w !! this) as [G|] eqn:Hg.
    2: { exfalso. unfold devolver_libro in H.
         rewrite (bind_M_Some _ _ _ _ _ (leer_prestamo_Some _ _ _ Hp)), Hd in H.
         rewrite (bind_M_Some _ _ _ _ _ (new_Date_eq _)) in H.
         replace (fecha_devolucion P <? reloj w (lecturas w)) with true in H
           by (symmetry; apply Z.ltb_lt; exact Ht).
         rewrite bind_M_None in H
           by (apply bind_M_None, leer_gestor_None; exact Hg).
         discriminate. }
    destruct (libros w !! libro P) as [L|] eqn:Hl;
      [destruct (usuarios w !! usuario P) as [U|] eqn:Hu|].
    + rewrite (devolver_libro_tarde _ _ _ _ _ _ _ Hp Hd Ht Hl Hu Hg) in H.
      injection H as <-. exists L, U, (informe_tarde G (fecha_devolucion P) (reloj w (lecturas w))).
      repeat split. right. split; [exact Ht|]. exists G. split; reflexivity.
    + exfalso. unfold devolver_libro in H.
      rewrite (bind_M_Some _ _ _ _ _ (leer_prestamo_Some _ _ _ Hp)), Hd in H.
      rewrite (bind_M_Some _ _ _ _ _ (new_Date_eq _)) in H.
      replace (fecha_devolucion P <? reloj w (lecturas w)) with true in H
        by (symmetry; apply Z.ltb_lt; exact Ht).
      erewrite Hpaso in H; cycle 1.
      { erewrite (bind_M_Some (leer_gestor this))
          by (apply leer_gestor_Some; exact Hg).
        rewrite (bind_M_Some _ _ _ _ _ (ejecutar_salida_eq _ _)).
        rewrite console_log_eq. reflexivity. }
      1-3: reflexivity.
      { right; reflexivity. }
      discriminate.
    + exfalso. unfold devolver_libro in H.
      rewrite (bind_M_Some _ _ _ _ _ (leer_prestamo_Some _ _ _ Hp)), Hd in H.
      rewrite (bind_M_Some _ _ _ _ _ (new_Date_eq _)) in H.
      replace (fecha_devolucion P <? reloj w (lecturas w)) with true in H
        by (symmetry; apply Z.ltb_lt; exact Ht).
      erewrite Hpaso in H; cycle 1.
      { erewrite (bind_M_Some (leer_gestor this))
          by (apply leer_gestor_Some; exact Hg).
        rewrite (bind_M_Some _ _ _ _ _ (ejecutar_salida_eq _ _)).
        rewrite console_log_eq. reflexivity. }
      1-3: reflexivity.
      { left; reflexivity. }
      discriminate.
  - destruct (libros w !! libro P) as [L|] eqn:Hl;
      [destruct (usuarios w !! usuario P) as [U|] eqn:Hu|].
    + rewrite (devolver_libro_a_tiempo _ _ _ _ _ _ Hp Hd Ht Hl Hu) in H.
      injection H as <-. exists L, U, [Consola LogATiempo].
      repeat split. left. split; [exact Ht|reflexivity].
    + exfalso. unfold devolver_libro in H.
      rewrite (bind_M_Some _ _ _ _ _ (leer_prestamo_Some _ _ _ Hp)), Hd in H.
      rewrite (bind_M_Some _ _ _ _ _ (new_Date_eq _)) in H.
      replace (fecha_devolucion P <? reloj w (lecturas w)) with false in H
        by (symmetry; apply Z.ltb_ge; exact Ht).
      erewrite Hpaso in H; cycle 1.
      { rewrite console_log_eq. reflexivity. }
      1-3: reflexivity.
      { right; reflexivity. }
      discriminate.
    + exfalso. unfold devolver_libro in H.
      rewrite (bind_M_Some _ _ _ _ _ (leer_prestamo_Some _ _ _ Hp)), Hd in H.
      rewrite (bind_M_Some _ _ _ _ _ (new_Date_eq _)) in H.
      replace (fecha_devolucion P <? reloj w (lecturas w)) with false in H
        by (symmetry; apply Z.ltb_ge; exact Ht).
      erewrite Hpaso in H; cycle 1.
      { rewrite console_log_eq. reflexivity. }
      1-3: reflexivity.
      { left; reflexivity. }
      discriminate.
Qed.

(** ** The invariant *)

Lemma coherente_inicial r z : coherente (mundo_inicial r z).
Proof.
  split; cbn.
  - intros p P H. rewrite lookup_nil in H. discriminate.
  - intros p [P H]. rewrite lookup_nil in H. discriminate.
  - intros b L H. rewrite lookup_nil in H. discriminate.
  - intros p p' P P' H. rewrite lookup_nil in H. discriminate.
Qed.

(** Only the four stores matter. *)
Lemma coherente_mismos_objetos w w' :
  libros w' = libros w -> usuarios w' = usuarios w ->
  objetos_prestamo w' = objetos_prestamo w -> gestores w' = gestores w ->
  coherente w -> coherente w'.
Proof.
  intros Hl Hu Hp Hg [H1 H2 H3 H4].
  split; rewrite ?Hl, ?Hu, ?Hp, ?Hg; assumption.
Qed.

Lemma coherente_new_Libro t a i w :
  coherente w ->
  coherente (con_libros (fun ls => ls ++
    [{| titulo := t; autor := a; isbn := i; disponible := true |}]) w).
Proof.
  intros [H1 H2 H3 H4]. split; simpl_mundo.
  - intros p P HP. destruct (H1 p P HP) as [[L HL] HU]. split; [|exact HU].
    exists L. apply lookup_app_l_Some, HL.
  - exact H2.
  - intros b L Hb. apply lookup_snoc_Some in Hb as [[_ Hb]|[-> <-]].
    + apply H3, Hb.
    + cbn. split; [|reflexivity]. intros _ p P HP Hlib. exfalso.
      destruct (H1 p P HP) as [HL _]. apply lookup_lt_is_Some in HL. lia.
  - exact H4.
Qed.

Lemma coherente_new_Usuario n i w :
  coherente w ->
  coherente (con_usuarios (fun us => us ++ [{| nombre := n; id_usuario := i |}]) w).
Proof.
  intros [H1 H2 H3 H4]. split; simpl_mundo; try assumption.
  intros p P HP. destruct (H1 p P HP) as [HL [U HU]]. split; [exact HL|].
  exists U. apply lookup_app_l_Some, HU.
Qed.

Lemma coherente_new_GestorPrestamos c n w :
  coherente w ->
  coherente (con_gestores (fun gs => gs ++
    [{| calculadora_multa := c; notificador := n; prestamos := [] |}]) w).
Proof.
  intros [H1 H2 H3 H4]. split; simpl_mundo; try assumption.
  intros p HP. destruct (H2 p HP) as (g & G & Hg & Hin).
  exists g, G. split; [apply lookup_app_l_Some, Hg|exact Hin].
Qed.

Lemma coherente_tras_prestamo this b u L U G w :
  libros w !! b = Some L -> disponible L = true ->
  usuarios w !! u = Some U -> gestores w !! this = Some G ->
  coherente w -> coherente (mundo_tras_prestamo this b u L U G w).
Proof.
  intros Hb Hd Hu Hg [H1 H2 H3 H4].
  pose proof (proj1 (H3 b L Hb) Hd) as Hlibre.
  unfold mundo_tras_prestamo. split; simpl_mundo.
  - intros p P HP. apply lookup_snoc_Some in HP as [[_ HP]|[-> <-]].
    + destruct (H1 p P HP) as [HL HU]. split; [|exact HU].
      apply list_lookup_insert_is_Some, HL.
    + cbn. split; [|eauto]. apply list_lookup_insert_is_Some. eauto.
  - intros p [P HP]. apply lookup_snoc_Some in HP as [[_ HP]|[-> <-]].
    + destruct (H2 p (ex_intro _ P HP)) as (g & G0 & Hg0 & Hin).
      destruct (decide (g = this)) as [->|Hne].
      * exists this, (con_prestamos (prestamos G ++ [length (objetos_prestamo w)]) G).
        split; [eapply lookup_insert_mismo, Hg|].
        cbn. apply elem_of_app. left.
        replace G with G0 by congruence. exact Hin.
      * exists g, G0. split; [|exact Hin].
        rewrite list_lookup_insert_ne by congruence. exact Hg0.
    + exists this, (con_prestamos (prestamos G ++ [length (objetos_prestamo w)]) G).
      split; [eapply lookup_insert_mismo, Hg|].
      cbn. apply elem_of_app. right. apply list_elem_of_singleton. reflexivity.
  - intros b' L' Hb'. apply list_lookup_insert_Some in Hb' as [(<- & <- & _)|[Hne Hb']].
    + cbn. split; [discriminate|]. intros Hall.
      specialize (Hall (length (objetos_prestamo w)) (prestamo_nuevo w b u)
                       (lookup_nuevo _ _) eq_refl).
      discriminate.
    + rewrite (H3 b' L' Hb'). split; intros Hall p P HP Hlib.
      * apply lookup_snoc_Some in HP as [[_ HP]|[-> <-]]; [eauto|].
        cbn in Hlib. congruence.
      * apply (Hall p P); [apply lookup_app_l_Some, HP|exact Hlib].
  - intros p p' P P' HP HP' Hd1 Hd2 Hlib.
    apply lookup_snoc_Some in HP as [[Hlt HP]|[-> <-]];
      apply lookup_snoc_Some in HP' as [[Hlt' HP']|[-> <-]].
    + eauto.
    + cbn in Hlib. rewrite (Hlibre p P HP Hlib) in Hd1. discriminate.
    + cbn in Hlib. rewrite (Hlibre p' P' HP' (eq_sym Hlib)) in Hd2. discriminate.
    + reflexivity.
Qed.

Lemma coherente_tras_devolucion p P L U informe w :
  objetos_prestamo w !! p = Some P -> devuelto P = false ->
  libros w !! libro P = Some L ->
  coherente w -> coherente (mundo_tras_devolucion p P L U informe w).
Proof.
  intros Hp Hd Hl [H1 H2 H3 H4].
  unfold mundo_tras_devolucion. split; simpl_mundo.
  - intros q Q HQ. rewrite list_lookup_insert_is_Some.
    apply list_lookup_insert_Some in HQ as [(<- & <- & _)|[Hne HQ]]; [|eauto].
    cbn. eauto.
  - intros q HQ. apply H2. apply list_lookup_insert_is_Some in HQ. exact HQ.
  - intros b' L' Hb'.
    apply list_lookup_insert_Some in Hb' as [(<- & <- & _)|[Hne Hb']].
    + cbn. split; [|reflexivity]. intros _ q Q HQ Hlib.
      apply list_lookup_insert_Some in HQ as [(<- & <- & _)|[Hne HQ]];
        [reflexivity|].
      destruct (devuelto Q) eqn:HdQ; [reflexivity|].
      exfalso. apply Hne. eapply H4; eauto.
    + rewrite (H3 b' L' Hb'). split; intros Hall q Q HQ Hlib.
      * apply list_lookup_insert_Some in HQ as [(<- & <- & _)|[Hne' HQ]];
          [reflexivity|eauto].
      * destruct (decide (p = q)) as [->|Hne'].
        { exfalso. apply Hne. congruence. }
        apply (Hall q Q); [|exact Hlib].
        rewrite list_lookup_insert_ne by exact Hne'. exact HQ.
  - intros q q' Q Q' HQ HQ' Hd1 Hd2 Hlib.
    apply list_lookup_insert_Some in HQ as [(<- & <- & _)|[Hne HQ]];
      [discriminate|].
    apply list_lookup_insert_Some in HQ' as [(<- & <- & _)|[Hne' HQ']];
      [discriminate|].
    eauto.
Qed.

Lemma coherente_asignar_fecha p P t w :
  objetos_prestamo w !! p = Some P ->
  coherente w ->
  coherente (con_objetos_prestamo (<[p := con_fecha_devolucion t P]>) w).
Proof.
  intros Hp [H1 H2 H3 H4].
  assert (Hmismo : forall q Q',
             <[p := con_fecha_devolucion t P]> (objetos_prestamo w) !! q = Some Q' ->
             exists Q, objetos_prestamo w !! q = Some Q /\
                       libro Q' = libro Q /\ usuario Q' = usuario Q /\
                       devuelto Q' = devuelto Q).
  { intros q Q' HQ.
    apply list_lookup_insert_Some in HQ as [(<- & <- & _)|[Hne HQ]]; eauto. }
  split; simpl_mundo.
  - intros q Q' HQ. destruct (Hmismo q Q' HQ) as (Q & HQ0 & -> & -> & _). eauto.
  - intros q HQ. apply H2. apply list_lookup_insert_is_Some in HQ. exact HQ.
  - intros b L Hb. rewrite (H3 b L Hb). split; intros Hall q Q HQ Hlib.
    + destruct (Hmismo q Q HQ) as (Q0 & HQ0 & Hlq & _ & ->).
      apply (Hall q Q0 HQ0). congruence.
    + destruct (decide (p = q)) as [<-|Hne].
      * assert (Q = P) as -> by congruence.
        apply (Hall p (con_fecha_devolucion t P));
          [eapply lookup_insert_mismo, Hp|exact Hlib].
      * apply (Hall q Q); [|exact Hlib].
        rewrite list_lookup_insert_ne by exact Hne. exact HQ.
  - intros q q' Q Q' HQ HQ' Hd1 Hd2 Hlib.
    destruct (Hmismo q Q HQ) as (Q0 & HQ0 & Hl0 & _ & Hd0).
    destruct (Hmismo q' Q' HQ') as (Q0' & HQ0' & Hl0' & _ & Hd0').
    apply (H4 q q' Q0 Q0' HQ0 HQ0'); congruence.
Qed.

(** ** Programs *)

Lemma paso_coherente o w w' :
  paso o w = Some (tt, w') -> coherente w -> coherente w'.
Proof.
  intros H Hc. destruct o as [t a i|n i|c n|g b u|g p|p t]; cbn [paso] in H.
  - injection H as <-. apply coherente_new_Libro, Hc.
  - injection H as <-. apply coherente_new_Usuario, Hc.
  - injection H as <-. apply coherente_new_GestorPrestamos, Hc.
  - rewrite bind_M in H.
    destruct (realizar_prestamo g b u w) as [[r w1]|] eqn:Hr; [|discriminate].
    injection H as <-.
    apply realizar_prestamo_inv in Hr as (L & Hb & [(Hd & _ & ->)|(Hd & U & G & Hu & Hg & _ & ->)]).
    + eapply coherente_mismos_objetos; [..|exact Hc]; reflexivity.
    + apply coherente_tras_prestamo; assumption.
  - apply devolver_libro_inv in H
      as (P & Hp & [(Hd & ->)|(Hd & L & U & informe & Hl & Hu & -> & _)]).
    + eapply coherente_mismos_objetos; [..|exact Hc]; reflexivity.
    + apply coherente_tras_devolucion; assumption.
  - destruct (objetos_prestamo w !! p) as [P|] eqn:Hp.
    + rewrite (escribir_prestamo_Some _ _ _ _ Hp) in H. injection H as <-.
      apply coherente_asignar_fecha; assumption.
    + rewrite (escribir_prestamo_None _ _ _ Hp) in H. discriminate.
Qed.

Lemma ejecutar_cons o ops w :
  ejecutar (o :: ops) w
  = match paso o w with Some (_, w1) => ejecutar ops w1 | None => None end.
Proof. reflexivity. Qed.

Lemma ejecutar_app ops1 ops2 w :
  ejecutar (ops1 ++ ops2) w
  = match ejecutar ops1 w with Some (_, w1) => ejecutar ops2 w1 | None => None end.
Proof.
  revert w. induction ops1 as [|o ops1 IH]; intros w; [reflexivity|].
  cbn [app]. rewrite !ejecutar_cons.
  destruct (paso o w) as [[[] w1]|]; [apply IH|reflexivity].
Qed.

Lemma ejecutar_coherente ops w w' :
  ejecutar ops w = Some (tt, w') -> coherente w -> coherente w'.
Proof.
  revert w. induction ops as [|o ops IH]; intros w H Hc.
  - injection H as <-. exact Hc.
  - rewrite ejecutar_cons in H.
    destruct (paso o w) as [[[] w1]|] eqn:Hp; [|discriminate].
    eapply IH; [exact H|]. eapply paso_coherente; eassumption.
Qed.

Lemma alcanzable_coherente w : alcanzable w -> coherente w.
Proof.
  intros (r & z & ops & H).
  eapply ejecutar_coherente; [exact H|apply coherente_inicial].
Qed.

(** In a world a program has reached, [devolver_libro] returns on every
    loan object, whichever manager it is called on. *)
Lemma devolver_libro_retorna this p w P G :
  alcanzable w -> objetos_prestamo w !! p = Some P ->
  gestores w !! this = Some G ->
  exists w', devolver_libro this p w = Some (tt, w').
Proof.
  intros Hw Hp Hg. apply alcanzable_coherente in Hw as [H1 _ _ _].
  destruct (H1 p P Hp) as [[L Hl] [U Hu]].
  destruct (devuelto P) eqn:Hd.
  { eexists. apply (devolver_libro_ya_devuelto _ _ _ _ Hp Hd). }
  destruct (Z.lt_ge_cases (fecha_devolucion P) (reloj w (lecturas w))) as [Ht|Ht].
  - eexists. apply (devolver_libro_tarde _ _ _ _ _ _ _ Hp Hd Ht Hl Hu Hg).
  - eexists. apply (devolver_libro_a_tiempo _ _ _ _ _ _ Hp Hd Ht Hl Hu).
Qed.

(** C1: in every world a program can reach from an empty one (by
    constructing books, users and managers, by [realizar_prestamo] and
    [devolver_libro] calls on any of the managers, and by reassigning due
    dates), a book is available if and only if no manager's collection holds
    a loan of that book that has not been returned. *)
Theorem disponible_sii_sin_prestamo_pendiente w b L :
  alcanzable w -> libros w !! b = Some L ->
  (disponible L = true <-> ~ prestamo_pendiente w b).
Proof.
  intros Hw Hb. apply alcanzable_coherente in Hw as [H1 H2 H3 H4].
  rewrite (H3 b L Hb). split.
  - intros Hall (g & G & p & P & _ & _ & HP & Hlib & Hd).
    rewrite (Hall p P HP Hlib) in Hd. discriminate.
  - intros Hno p P HP Hlib. destruct (devuelto P) eqn:Hd; [reflexivity|].
    exfalso. apply Hno.
    destruct (H2 p (ex_intro _ P HP)) as (g & G & Hg & Hin).
    exists g, G, p, P. repeat split; assumption.
Qed.

(** ** The life of a loan *)

Lemma paso_devuelto o w w' p P :
  paso o w = Some (tt, w') -> objetos_prestamo w !! p = Some P ->
  exists P', objetos_prestamo w' !! p = Some P' /\
    (devuelto P = true -> devuelto P' = true) /\
    (devuelto P = false -> devuelto P' = true ->
     exists g, o = OpDevolverLibro g p /\ devolver_libro g p w = Some (tt, w')).
Proof.
  intros H HP.
  assert (Hnada : forall w1, objetos_prestamo w1 = objetos_prestamo w ->
            exists P', objetos_prestamo w1 !! p = Some P' /\
              (devuelto P = true -> devuelto P' = true) /\
              (devuelto P = false -> devuelto P' = true ->
               exists g, o = OpDevolverLibro g p /\ devolver_libro g p w = Some (tt, w1))).
  { intros w1 ->. exists P. split; [exact HP|]. split; [tauto|]. congruence. }
  destruct o as [t a i|n i|c n|g b u|g q|q t]; cbn [paso] in H.
  - injection H as <-. apply Hnada. reflexivity.
  - injection H as <-. apply Hnada. reflexivity.
  - injection H as <-. apply Hnada. reflexivity.
  - rewrite bind_M in H.
    destruct (realizar_prestamo g b u w) as [[r w1]|] eqn:Hr; [|discriminate].
    injection H as <-.
    apply realizar_prestamo_inv in Hr as (L & Hb & [(Hd & _ & ->)|(Hd & U & G & Hu & Hg & _ & ->)]).
    + apply Hnada. reflexivity.
    + exists P. unfold mundo_tras_prestamo. simpl_mundo.
      split; [apply lookup_app_l_Some, HP|]. split; [tauto|]. congruence.
  - pose proof H as Hdev.
    apply devolver_libro_inv in H
      as (Q & Hq & [(Hd & ->)|(Hd & L & U & informe & Hl & Hu & -> & _)]).
    + apply Hnada. reflexivity.
    + unfold mundo_tras_devolucion. simpl_mundo.
      destruct (decide (q = p)) as [->|Hne].
      * exists (con_devuelto true P).
        assert (Q = P) as -> by congruence.
        split; [eapply lookup_insert_mismo, HP|]. split; [reflexivity|].
        intros _ _. exists g. split; [reflexivity|exact Hdev].
      * exists P. rewrite list_lookup_insert_ne by exact Hne.
        split; [exact HP|]. split; [tauto|]. congruence.
  - destruct (objetos_prestamo w !! q) as [Q|] eqn:Hq.
    + rewrite (escribir_prestamo_Some _ _ _ _ Hq) in H. injection H as <-.
      simpl_mundo. destruct (decide (q = p)) as [->|Hne].
      * exists (con_fecha_devolucion t P). assert (Q = P) as -> by congruence.
        split; [eapply lookup_insert_mismo, HP|]. cbn. split; [tauto|]. congruence.
      * exists P. rewrite list_lookup_insert_ne by exact Hne.
        split; [exact HP|]. split; [tauto|]. congruence.
    + rewrite (escribir_prestamo_None _ _ _ Hq) in H. discriminate.
Qed.

(** C8: along any sequence of operations a loan object stays in the store;
    if it was returned before the sequence it is returned after it, and if
    it goes from not returned to returned then the sequence contains a
    [devolver_libro] call on that very loan which found it not yet returned
    and left it returned. *)
Theorem devuelto_solo_por_devolver_libro ops w w' p P :
  ejecutar ops w = Some (tt, w') -> objetos_prestamo w !! p = Some P ->
  exists P', objetos_prestamo w' !! p = Some P' /\
    (devuelto P = true -> devuelto P' = true) /\
    (devuelto P = false -> devuelto P' = true ->
     exists ops1 g ops2 w1 w2 P1 P2,
       ops = ops1 ++ OpDevolverLibro g p :: ops2 /\
       ejecutar ops1 w = Some (tt, w1) /\
       objetos_prestamo w1 !! p = Some P1 /\ devuelto P1 = false /\
       devolver_libro g p w1 = Some (tt, w2) /\
       objetos_prestamo w2 !! p = Some P2 /\ devuelto P2 = true /\
       ejecutar ops2 w2 = Some (tt, w')).
Proof.
  revert w P. induction ops as [|o ops IH]; intros w P H HP.
  - injection H as <-. exists P. split; [exact HP|]. split; [tauto|]. congruence.
  - rewrite ejecutar_cons in H.
    destruct (paso o w) as [[[] w1]|] eqn:Hp; [|discriminate].
    destruct (paso_devuelto _ _ _ _ _ Hp HP) as (P1 & HP1 & Hmon & Hcambio).
    destruct (IH w1 P1 H HP1) as (P' & HP' & Hmon' & Hcambio').
    exists P'. split; [exact HP'|]. split; [tauto|].
    intros Hf Ht. destruct (devuelto P1) eqn:Hd1.
    + destruct (Hcambio Hf eq_refl) as (g & -> & Hdev).
      exists [], g, ops, w, w1, P, P1. repeat split; assumption.
    + destruct (Hcambio' eq_refl Ht)
        as (ops1 & g & ops2 & wa & wb & Pa & Pb & -> & He1 & Ha & Hda & Hdev & Hb & Hdb & He2).
      exists (o :: ops1), g, ops2, wa, wb, Pa, Pb.
      repeat split; try assumption.
      rewrite ejecutar_cons, Hp. exact He1.
Qed.

(** ** Fine calculators *)






(** ** Notifiers *)

(** Both notifiers accept every message and print one line for it, so one
    can stand for the other wherever the result alone is used. *)
Lemma notificadores_aceptan mensaje destinatario :
  enviar NotificadorEmail mensaje destinatario
  = (true, [LogEmail destinatario mensaje]) /\
  enviar NotificadorSMS mensaje destinatario
  = (true, [LogSMS destinatario mensaje]).
Proof. split; reflexivity. Qed.

(** ** [realizar_prestamo] *)

Lemma llamadas_enviar_app es1 es2 :
  llamadas_enviar (es1 ++ es2) = llamadas_enviar es1 ++ llamadas_enviar es2.
Proof. apply List.filter_app. Qed.

(** C3: on a book that is not available [realizar_prestamo] returns [null]
    and changes no object: the stores of books, users, loans and managers
    (hence every manager's collection) are as before, the clock is not read,
    and the trace gains the console line of the rejection and no call of
    [enviar]. *)
Theorem realizar_prestamo_no_disponible_sin_cambios this b u w L :
  libros w !! b = Some L -> disponible L = false ->
  exists w',
    realizar_prestamo this b u w = Some (None, w') /\
    libros w' = libros w /\ usuarios w' = usuarios w /\
    objetos_prestamo w' = objetos_prestamo w /\ gestores w' = gestores w /\
    lecturas w' = lecturas w /\
    traza w' = traza w ++ [Consola (LogNoDisponible (titulo L))] /\
    llamadas_enviar (traza w') = llamadas_enviar (traza w).
Proof.
  intros Hb Hd. exists (mundo_tras_rechazo L w).
  split; [apply realizar_prestamo_no_disponible; assumption|].
  unfold mundo_tras_rechazo. simpl_mundo. repeat split.
  rewrite llamadas_enviar_app. cbn. apply app_nil_r.
Qed.

Lemma realizar_prestamo_no_disponible_sin_cambios_witness :
  libros (mundo_prestado MultaEstandar 0) !! 0%nat = Some (libro_1984 false) /\
  exists w',
    realizar_prestamo 0 0 0 (mundo_prestado MultaEstandar 0) = Some (None, w') /\
    libros w' = libros (mundo_prestado MultaEstandar 0) /\
    objetos_prestamo w' = objetos_prestamo (mundo_prestado MultaEstandar 0) /\
    gestores w' = gestores (mundo_prestado MultaEstandar 0).
Proof.
  split; [reflexivity|].
  destruct (realizar_prestamo_no_disponible_sin_cambios 0 0 0
              (mundo_prestado MultaEstandar 0) (libro_1984 false))
    as (w' & H & Hl & _ & Hp & Hg & _); [reflexivity..|].
  exists w'. exact (conj H (conj Hl (conj Hp Hg))).
Defined.

(** C7, as the code has it: on an available book [realizar_prestamo] returns
    a loan object that did not exist before, not returned, whose
    [fecha_prestamo] is the first clock reading of the constructor and whose
    [fecha_devolucion] is the second reading moved 14 days ahead in local
    time; that is the second reading plus 14 days of 24 hours when the zone
    offset is the same at both ends, and [fecha_prestamo] plus 14 days when
    moreover the two readings coincide.  The book becomes unavailable and the
    loan is appended to the manager's collection. *)
Theorem realizar_prestamo_disponible_crea_prestamo this b u w L U G :
  libros w !! b = Some L -> disponible L = true ->
  usuarios w !! u = Some U -> gestores w !! this = Some G ->
  let t1 := reloj w (lecturas w) in
  let t2 := reloj w (S (lecturas w)) in
  exists p P w',
    realizar_prestamo this b u w = Some (Some p, w') /\
    objetos_prestamo w !! p = None /\
    objetos_prestamo w' !! p = Some P /\
    libro P = b /\ usuario P = u /\ devuelto P = false /\
    fecha_prestamo P = t1 /\
    fecha_devolucion P = UTC (zona w) (LocalTime (zona w) t2 + 14 * msPerDay) /\
    (zona w (LocalTime (zona w) t2 + 14 * msPerDay) false = zona w t2 true ->
     fecha_devolucion P = t2 + 14 * msPerDay /\
     (t2 = t1 -> fecha_devolucion P = fecha_prestamo P + 14 * msPerDay)) /\
    libros w' !! b = Some (con_disponible false L) /\
    gestores w' !! this = Some (con_prestamos (prestamos G ++ [p]) G).
Proof.
  intros Hb Hd Hu Hg t1 t2. subst t1 t2.
  exists (length (objetos_prestamo w)), (prestamo_nuevo w b u),
    (mundo_tras_prestamo this b u L U G w).
  split; [apply realizar_prestamo_disponible; assumption|].
  split; [apply lookup_ge_None; lia|].
  unfold mundo_tras_prestamo, prestamo_nuevo. simpl_mundo.
  split; [apply lookup_nuevo|].
  do 4 (split; [reflexivity|]).
  split; [apply setDate_getDate|].
  split.
  { intros Hz. rewrite (setDate_getDate_mismo_desfase _ _ _ Hz).
    split; [reflexivity|]. intros ->. reflexivity. }
  split; eapply lookup_insert_mismo; eassumption.
Qed.

Lemma realizar_prestamo_disponible_crea_prestamo_witness :
  libros (mundo_biblioteca reloj_ms NotificadorEmail) !! 0%nat
  = Some (libro_1984 true) /\
  usuarios (mundo_biblioteca reloj_ms NotificadorEmail) !! 0%nat
  = Some usuario_ana /\
  exists p P w',
    realizar_prestamo 0 0 0 (mundo_biblioteca reloj_ms NotificadorEmail)
    = Some (Some p, w') /\
    objetos_prestamo w' !! p = Some P /\
    fecha_prestamo P = 0 /\ fecha_devolucion P = 1 + 14 * msPerDay.
Proof.
  split; [reflexivity|]. split; [reflexivity|].
  destruct (realizar_prestamo_disponible_crea_prestamo 0 0 0
              (mundo_biblioteca reloj_ms NotificadorEmail) (libro_1984 true)
              usuario_ana (gestor_unico MultaEstandar NotificadorEmail []))
    as (p & P & w' & H & _ & HP & _ & _ & _ & H1 & _ & H2 & _);
    [reflexivity..|].
  exists p, P, w'. split; [exact H|]. split; [exact HP|].
  split; [exact H1|]. apply H2. reflexivity.
Defined.

(** C7 as the specification states it does not hold: with a clock that
    advances one millisecond between the two readings of the constructor
    (and no zone offset) the loan is made at 0 and due at 14 days plus one
    millisecond. *)
Lemma realizar_prestamo_fecha_devolucion_contraejemplo :
  ~ (forall this b u w L U G,
       libros w !! b = Some L -> disponible L = true ->
       usuarios w !! u = Some U -> gestores w !! this = Some G ->
       exists p P w',
         realizar_prestamo this b u w = Some (Some p, w') /\
         objetos_prestamo w' !! p = Some P /\
         fecha_devolucion P = fecha_prestamo P + 14 * msPerDay /\
         devuelto P = false /\
         libros w' !! b = Some (con_disponible false L) /\
         gestores w' !! this = Some (con_prestamos (prestamos G ++ [p]) G)).
Proof.
  intros H.
  destruct (H 0%nat 0%nat 0%nat
              (mundo_biblioteca reloj_ms NotificadorEmail)
              (libro_1984 true) usuario_ana
              (gestor_unico MultaEstandar NotificadorEmail [])
              eq_refl eq_refl eq_refl eq_refl)
    as (p & P & w' & Hr & HP & Hf & _).
  vm_compute in Hr. injection Hr as <- <-.
  vm_compute in HP. injection HP as <-.
  vm_compute in Hf. discriminate.
Qed.

Lemma contiene_medio (a t b : string) : contiene (a +:+ t +:+ b) t.
Proof. exists a, b. reflexivity. Qed.

Lemma contiene_final (a t : string) : contiene (a +:+ t) t.
Proof.
  exists a, EmptyString. f_equal.
  induction t as [|x t IH]; [reflexivity|].
  change (String x t = String x (t +:+ EmptyString)). rewrite <- IH. reflexivity.
Qed.

(** C9: a successful [realizar_prestamo] calls [notificador.enviar] exactly
    once, for the user's name, with a message made of the book title and of
    the date part [YYYY-MM-DD] of the due date (what precedes the [T] of its
    ISO form, so no time of day); whatever [enviar] returns, [false]
    included, the book stays unavailable and the loan stays in the store and
    in the manager's collection. *)
Theorem realizar_prestamo_notifica_una_vez this b u w L U G :
  libros w !! b = Some L -> disponible L = true ->
  usuarios w !! u = Some U -> gestores w !! this = Some G ->
  exists p P w' nuevos,
    realizar_prestamo this b u w = Some (Some p, w') /\
    objetos_prestamo w' !! p = Some P /\
    traza w' = traza w ++ nuevos /\
    let fecha := fecha_iso (fecha_devolucion P) in
    let mensaje :=
      "Has prestado '" +:+ titulo L +:+ "'. Fecha de devolución: " +:+ fecha in
    let resultado := fst (enviar (notificador G) mensaje (nombre U)) in
    llamadas_enviar nuevos = [Llamada_enviar mensaje (nombre U) resultado] /\
    contiene mensaje (titulo L) /\ contiene mensaje fecha /\
    toISOString (fecha_devolucion P) = fecha +:+ "T" +:+ hora_iso (fecha_devolucion P) /\
    aparece "T" fecha = false /\
    libros w' !! b = Some (con_disponible false L) /\
    devuelto P = false /\ libro P = b /\
    gestores w' !! this = Some (con_prestamos (prestamos G ++ [p]) G).
Proof.
  intros Hb Hd Hu Hg.
  exists (length (objetos_prestamo w)), (prestamo_nuevo w b u),
    (mundo_tras_prestamo this b u L U G w),
    (eventos_prestamo G L U (prestamo_nuevo w b u)).
  split; [apply realizar_prestamo_disponible; assumption|].
  split; [apply lookup_nuevo|].
  split; [reflexivity|].
  cbv zeta. unfold eventos_prestamo. rewrite mensaje_prestamo_eq.
  split.
  { rewrite llamadas_enviar_app, llamadas_enviar_consola. reflexivity. }
  split.
  { apply (contiene_medio "Has prestado '"). }
  split.
  { rewrite <- !append_asociativa. apply contiene_final. }
  split; [reflexivity|].
  split; [apply fecha_iso_sin_T|].
  unfold mundo_tras_prestamo. simpl_mundo.
  split; [eapply lookup_insert_mismo; eassumption|].
  do 2 (split; [reflexivity|]).
  eapply lookup_insert_mismo; eassumption.
Qed.

Lemma realizar_prestamo_notifica_una_vez_witness :
  libros (mundo_biblioteca (reloj_prestamo 0 0) NotificadorRechazado) !! 0%nat
  = Some (libro_1984 true) /\
  exists p P w' nuevos,
    realizar_prestamo 0 0 0
      (mundo_biblioteca (reloj_prestamo 0 0) NotificadorRechazado)
    = Some (Some p, w') /\
    objetos_prestamo w' !! p = Some P /\
    traza w'
    = traza (mundo_biblioteca (reloj_prestamo 0 0) NotificadorRechazado)
        ++ nuevos /\
    llamadas_enviar nuevos
    = [Llamada_enviar "Has prestado '1984'. Fecha de devolución: 1970-01-15"
         "Ana García" false] /\
    libros w' !! 0%nat = Some (libro_1984 false).
Proof.
  split; [reflexivity|].
  destruct (realizar_prestamo_notifica_una_vez 0 0 0
              (mundo_biblioteca (reloj_prestamo 0 0) NotificadorRechazado)
              (libro_1984 true) usuario_ana
              (gestor_unico MultaEstandar NotificadorRechazado []))
    as (p & P & w' & nuevos & H & HP & Ht & Hn & _ & _ & _ & _ & Hl & _);
    [reflexivity..|].
  exists p, P, w', nuevos. split; [exact H|]. split; [exact HP|].
  split; [exact Ht|]. split; [|exact Hl].
  rewrite Hn. vm_compute in H. injection H as <- <-.
  vm_compute in HP. injection HP as <-. reflexivity.
Defined.

(** ** [devolver_libro] *)

(** C4: on a loan already returned [devolver_libro] only reports it: the
    stores of books, users, loans and managers are unchanged and the clock
    is not read.  The loan is still returned afterwards, so the same holds
    for any number of further calls. *)
Theorem devolver_libro_ya_devuelto_sin_cambios this p w P :
  objetos_prestamo w !! p = Some P -> devuelto P = true ->
  (exists w',
     devolver_libro this p w = Some (tt, w') /\
     libros w' = libros w /\ usuarios w' = usuarios w /\
     objetos_prestamo w' = objetos_prestamo w /\ gestores w' = gestores w /\
     lecturas w' = lecturas w /\
     traza w' = traza w ++ [Consola LogYaDevuelto]) /\
  (forall n, exists w',
     ejecutar (repeat (OpDevolverLibro this p) n) w = Some (tt, w') /\
     libros w' = libros w /\ usuarios w' = usuarios w /\
     objetos_prestamo w' = objetos_prestamo w /\ gestores w' = gestores w /\
     lecturas w' = lecturas w /\
     traza w' = traza w ++ repeat (Consola LogYaDevuelto) n).
Proof.
  intros Hp Hd. split.
  { exists (mundo_tras_ya_devuelto w).
    split; [apply (devolver_libro_ya_devuelto _ _ _ _ Hp Hd)|].
    repeat split. }
  intros n. revert w Hp. induction n as [|n IH]; intros w Hp.
  - exists w. cbn. rewrite app_nil_r. repeat split.
  - cbn [repeat]. rewrite ejecutar_cons. cbn [paso].
    rewrite (devolver_libro_ya_devuelto _ _ _ _ Hp Hd).
    destruct (IH (mundo_tras_ya_devuelto w) Hp)
      as (w' & He & Hl & Hu & Ho & Hg & Hr & Ht).
    exists w'. split; [exact He|].
    rewrite Hl, Hu, Ho, Hg, Hr, Ht. unfold mundo_tras_ya_devuelto. simpl_mundo.
    repeat split. rewrite <- app_assoc. reflexivity.
Qed.

Lemma devolver_libro_ya_devuelto_sin_cambios_witness :
  objetos_prestamo mundo_devuelto !! 0%nat = Some (prestamo_ana true) /\
  exists w',
    devolver_libro 0 0 mundo_devuelto = Some (tt, w') /\
    libros w' = libros mundo_devuelto /\
    objetos_prestamo w' = objetos_prestamo mundo_devuelto /\
    gestores w' = gestores mundo_devuelto.
Proof.
  split; [reflexivity|].
  destruct (devolver_libro_ya_devuelto_sin_cambios 0 0 mundo_devuelto
              (prestamo_ana true))
    as [(w' & H & Hl & _ & Hp & Hg & _) _]; [reflexivity..|].
  exists w'. exact (conj H (conj Hl (conj Hp Hg))).
Defined.

(** C6: for a loan not yet returned the number of days late is
    [max(0, floor((now - due) / 1 day))]: whole days elapsed past the due
    date, truncated (towards zero), never rounded up.  When [now > due] it
    is the number [devolver_libro] computes and reports; otherwise it is 0
    and the on-time report is written. *)
Theorem devolver_libro_dias_truncados this p w P L U G :
  objetos_prestamo w !! p = Some P -> devuelto P = false ->
  libros w !! libro P = Some L -> usuarios w !! usuario P = Some U ->
  gestores w !! this = Some G ->
  let fecha_actual := reloj w (lecturas w) in
  let transcurrido := fecha_actual - fecha_devolucion P in
  let dias := Z.max 0 (transcurrido / msPerDay) in
  exists w',
    devolver_libro this p w = Some (tt, w') /\
    dias = Z.max 0 (Z.quot transcurrido msPerDay) /\
    dias * msPerDay <= Z.max 0 transcurrido < (dias + 1) * msPerDay /\
    ((fecha_devolucion P < fecha_actual /\
      let r := calcular (calculadora_multa G) dias in
      traza w' = traza w ++ map Consola (snd r)
                   ++ [Consola (LogRetraso dias (fst r));
                       Consola (LogDevuelto (titulo L) (nombre U))])
     \/ (fecha_actual <= fecha_devolucion P /\ dias = 0 /\
         traza w' = traza w ++ [Consola LogATiempo;
                                Consola (LogDevuelto (titulo L) (nombre U))])).
Proof.
  intros Hp Hd Hl Hu Hg fecha_actual transcurrido dias.
  assert (Hq : dias = Z.max 0 (Z.quot transcurrido msPerDay)).
  { subst dias. destruct (Z.le_gt_cases 0 transcurrido) as [Hpos|Hneg].
    - rewrite Z.quot_div_nonneg by (unfold msPerDay; lia). reflexivity.
    - assert (transcurrido / msPerDay < 0)
        by (apply Z.div_lt_upper_bound; unfold msPerDay; lia).
      assert (Z.quot transcurrido msPerDay <= 0).
      { rewrite <- (Z.opp_involutive transcurrido), Z.quot_opp_l
          by (unfold msPerDay; lia).
        pose proof (Z.quot_pos (- transcurrido) msPerDay).
        unfold msPerDay in *. lia. }
      lia. }
  assert (Hr : dias * msPerDay <= Z.max 0 transcurrido < (dias + 1) * msPerDay).
  { subst dias. unfold msPerDay. Z.div_mod_to_equations. lia. }
  destruct (Z.lt_ge_cases (fecha_devolucion P) fecha_actual) as [Ht|Ht].
  - exists (mundo_tras_devolucion p P L U
              (informe_tarde G (fecha_devolucion P) fecha_actual) w).
    split; [apply devolver_libro_tarde; assumption|].
    split; [exact Hq|]. split; [exact Hr|]. left. split; [exact Ht|].
    assert (Hdias : dias = (fecha_actual - fecha_devolucion P) / (1000 * 60 * 60 * 24)).
    { subst dias transcurrido. change (1000 * 60 * 60 * 24) with msPerDay.
      apply Z.max_r, Z.div_pos; unfold msPerDay; lia. }
    cbv zeta. rewrite Hdias. unfold mundo_tras_devolucion, informe_tarde.
    simpl_mundo. rewrite <- app_assoc. reflexivity.
  - exists (mundo_tras_devolucion p P L U [Consola LogATiempo] w).
    split; [apply devolver_libro_a_tiempo; assumption|].
    split; [exact Hq|]. split; [exact Hr|]. right. split; [exact Ht|].
    split; [|reflexivity].
    subst dias transcurrido. unfold msPerDay. Z.div_mod_to_equations. lia.
Qed.

Lemma devolver_libro_dias_truncados_witness :
  objetos_prestamo (mundo_prestado MultaEstandar (17 * un_dia + 86399999)) !! 0%nat
  = Some (prestamo_ana false) /\
  exists w',
    devolver_libro 0 0 (mundo_prestado MultaEstandar (17 * un_dia + 86399999))
    = Some (tt, w') /\
    traza w'
    = traza (mundo_prestado MultaEstandar (17 * un_dia + 86399999))
        ++ [Consola (LogRetraso 3 30);
            Consola (LogDevuelto "1984" "Ana García")].
Proof.
  split; [reflexivity|].
  destruct (devolver_libro_dias_truncados 0 0
              (mundo_prestado MultaEstandar (17 * un_dia + 86399999))
              (prestamo_ana false) (libro_1984 false) usuario_ana
              (gestor_unico MultaEstandar NotificadorEmail [0%nat]))
    as (w' & H & _ & _ & [[_ Ht]|[Hno _]]); [reflexivity..| |].
  - exists w'. split; [exact H|]. exact Ht.
  - exfalso. vm_compute in Hno. apply Hno. reflexivity.
Defined.

(** C2, as the code has it: when [devolver_libro] finds a loan not yet
    returned and the clock is past its due date, the days late are
    [floor((now - due) / 1 day)], which is never negative and is positive
    exactly when a whole day has elapsed; the fine
    [calculadora_multa.calcular(dias_retraso)] is computed and reported with
    them. *)
Theorem devolver_libro_tarde_informa_multa this p w P L U G :
  objetos_prestamo w !! p = Some P -> devuelto P = false ->
  libros w !! libro P = Some L -> usuarios w !! usuario P = Some U ->
  gestores w !! this = Some G ->
  let fecha_actual := reloj w (lecturas w) in
  fecha_devolucion P < fecha_actual ->
  let dias_retraso := (fecha_actual - fecha_devolucion P) / msPerDay in
  let r := calcular (calculadora_multa G) dias_retraso in
  exists w',
    devolver_libro this p w = Some (tt, w') /\
    0 <= dias_retraso /\
    (0 < dias_retraso <-> msPerDay <= fecha_actual - fecha_devolucion P) /\
    traza w' = traza w ++ map Consola (snd r)
                 ++ [Consola (LogRetraso dias_retraso (fst r));
                     Consola (LogDevuelto (titulo L) (nombre U))].
Proof.
  intros Hp Hd Hl Hu Hg fecha_actual Ht dias_retraso r.
  exists (mundo_tras_devolucion p P L U
            (informe_tarde G (fecha_devolucion P) fecha_actual) w).
  split; [apply devolver_libro_tarde; assumption|].
  split; [subst dias_retraso; apply Z.div_pos; unfold msPerDay; lia|].
  split.
  { subst dias_retraso. unfold msPerDay. Z.div_mod_to_equations. lia. }
  unfold mundo_tras_devolucion, informe_tarde. simpl_mundo.
  rewrite <- app_assoc. reflexivity.
Qed.

Lemma devolver_libro_tarde_informa_multa_witness :
  objetos_prestamo (mundo_prestado MultaEstudiante (17 * un_dia)) !! 0%nat
  = Some (prestamo_ana false) /\
  fecha_devolucion (prestamo_ana false)
  < reloj (mundo_prestado MultaEstudiante (17 * un_dia))
      (lecturas (mundo_prestado MultaEstudiante (17 * un_dia))) /\
  exists w',
    devolver_libro 0 0 (mundo_prestado MultaEstudiante (17 * un_dia))
    = Some (tt, w') /\
    traza w'
    = traza (mundo_prestado MultaEstudiante (17 * un_dia))
        ++ [Consola (LogRetraso 3 15);
            Consola (LogDevuelto "1984" "Ana García")].
Proof.
  split; [reflexivity|]. split; [reflexivity|].
  destruct (devolver_libro_tarde_informa_multa 0 0
              (mundo_prestado MultaEstudiante (17 * un_dia))
              (prestamo_ana false) (libro_1984 false) usuario_ana
              (gestor_unico MultaEstudiante NotificadorEmail [0%nat]))
    as (w' & H & _ & _ & Ht); [reflexivity..|].
  exists w'. split; [exact H|exact Ht].
Defined.

(** C2 as the specification states it does not hold: one millisecond past
    the due date the return is late, and the days late are 0, not more. *)
Lemma devolver_libro_tarde_cero_dias_contraejemplo :
  ~ (forall this p w P L U G,
       objetos_prestamo w !! p = Some P -> devuelto P = false ->
       libros w !! libro P = Some L -> usuarios w !! usuario P = Some U ->
       gestores w !! this = Some G ->
       let fecha_actual := reloj w (lecturas w) in
       fecha_devolucion P < fecha_actual ->
       let dias_retraso := (fecha_actual - fecha_devolucion P) / msPerDay in
       let r := calcular (calculadora_multa G) dias_retraso in
       exists w',
         devolver_libro this p w = Some (tt, w') /\
         0 < dias_retraso /\
         traza w' = traza w ++ map Consola (snd r)
                      ++ [Consola (LogRetraso dias_retraso (fst r));
                          Consola (LogDevuelto (titulo L) (nombre U))]).
Proof.
  intros H.
  destruct (H 0%nat 0%nat
              (mundo_prestado MultaEstandar (14 * un_dia + 1))
              (prestamo_ana false) (libro_1984 false) usuario_ana
              (gestor_unico MultaEstandar NotificadorEmail [0%nat])
              eq_refl eq_refl eq_refl eq_refl eq_refl eq_refl)
    as (w' & _ & Hpos & _).
  vm_compute in Hpos. discriminate.
Qed.

(** ** The scenarios of the specification, run *)

Lemma alcanzable_mundo_de r z ops w :
  ejecutar ops (mundo_inicial r z) = Some (tt, w) -> alcanzable w.
Proof. intros H. exists r, z, ops. exact H. Qed.

Lemma disponible_sii_sin_prestamo_pendiente_witness :
  alcanzable (mundo_prestado MultaEstandar 0) /\
  libros (mundo_prestado MultaEstandar 0) !! 0%nat = Some (libro_1984 false) /\
  (disponible (libro_1984 false) = true
   <-> ~ prestamo_pendiente (mundo_prestado MultaEstandar 0) 0).
Proof.
  assert (Hw : alcanzable (mundo_prestado MultaEstandar 0)).
  { apply (alcanzable_mundo_de (reloj_prestamo 0 0) zona_utc
             (programa_prestamo MultaEstandar NotificadorEmail)).
    vm_compute. reflexivity. }
  split; [exact Hw|]. split; [reflexivity|].
  apply (disponible_sii_sin_prestamo_pendiente
           (mundo_prestado MultaEstandar 0) 0 (libro_1984 false) Hw).
  reflexivity.
Defined.

Lemma devuelto_solo_por_devolver_libro_witness :
  ejecutar programa_ida_y_vuelta (mundo_prestado MultaEstandar (3 * un_dia))
  = Some (tt, mundo_ida_y_vuelta) /\
  objetos_prestamo (mundo_prestado MultaEstandar (3 * un_dia)) !! 0%nat
  = Some (prestamo_ana false) /\
  exists P', objetos_prestamo mundo_ida_y_vuelta !! 0%nat = Some P' /\
             devuelto P' = true.
Proof.
  assert (He : ejecutar programa_ida_y_vuelta
                 (mundo_prestado MultaEstandar (3 * un_dia))
               = Some (tt, mundo_ida_y_vuelta)) by (vm_compute; reflexivity).
  split; [exact He|]. split; [reflexivity|].
  destruct (devuelto_solo_por_devolver_libro programa_ida_y_vuelta
              (mundo_prestado MultaEstandar (3 * un_dia)) mundo_ida_y_vuelta
              0%nat (prestamo_ana false) He)
    as (P' & HP' & _ & _); [reflexivity|].
  exists P'. split; [exact HP'|].
  vm_compute in HP'. injection HP' as <-. reflexivity.
Defined.

(** Scenario C: a return three days before the due date is on time; the
    loan is returned and the book available again. *)
Example escenario_devolucion_anticipada :
  devolver_libro 0 0 (mundo_prestado MultaEstandar (11 * un_dia))
  = Some (tt, mundo_tras_devolucion 0 (prestamo_ana false) (libro_1984 false)
                usuario_ana [Consola LogATiempo]
                (mundo_prestado MultaEstandar (11 * un_dia))) /\
  libros (mundo_tras_devolucion 0 (prestamo_ana false) (libro_1984 false)
            usuario_ana [Consola LogATiempo]
            (mundo_prestado MultaEstandar (11 * un_dia)))
  = [libro_1984 true] /\
  objetos_prestamo (mundo_tras_devolucion 0 (prestamo_ana false)
                      (libro_1984 false) usuario_ana [Consola LogATiempo]
                      (mundo_prestado MultaEstandar (11 * un_dia)))
  = [prestamo_ana true].
Proof. vm_compute. repeat split. Qed.

(** Scenario D: three days late, the VIP fine is 0. *)
Example escenario_devolucion_tardia_vip :
  traza (mundo_de (reloj_prestamo 0 (17 * un_dia)) zona_utc
           (programa_devolucion MultaVIP NotificadorSMS))
  = [Consola (LogSMS "Ana García"
                "Has prestado '1984'. Fecha de devolución: 1970-01-15");
     Llamada_enviar "Has prestado '1984'. Fecha de devolución: 1970-01-15"
       "Ana García" true;
     Consola (LogPrestamoRealizado "1984" "Ana García");
     Consola (LogRetraso 3 0);
     Consola (LogDevuelto "1984" "Ana García")].
Proof. vm_compute. reflexivity. Qed.

(** Scenario E: the second return of a loan changes nothing. *)
Example escenario_devolucion_repetida :
  devolver_libro 0 0 mundo_devuelto
  = Some (tt, mundo_tras_ya_devuelto mundo_devuelto) /\
  objetos_prestamo (mundo_tras_ya_devuelto mundo_devuelto) = [prestamo_ana true] /\
  libros (mundo_tras_ya_devuelto mundo_devuelto) = [libro_1984 true].
Proof. vm_compute. repeat split. Qed.

(** The calendar on the dates of the examples. *)
Example toISOString_ejemplos :
  toISOString 0 = "1970-01-01T00:00:00.000Z"%string /\
  toISOString 1793638923456 = "2026-11-02T17:02:03.456Z"%string /\
  toISOString 951782400000 = "2000-02-29T00:00:00.000Z"%string /\
  toISOString (-1) = "1969-12-31T23:59:59.999Z"%string /\
  toISOString 253402300800000 = "+010000-01-01T00:00:00.000Z"%string.
Proof. vm_compute. repeat split. Qed.

(** * Further properties of the code *)

(** ** What the two methods touch *)

Lemma lookup_snoc_otro {A : Type} (l : list A) (x : A) (i : nat) :
  i <> length l -> (l ++ [x]) !! i = l !! i.
Proof.
  intros Hne. destruct (Nat.lt_ge_cases i (length l)) as [Hlt|Hge].
  - apply lookup_app_l. exact Hlt.
  - rewrite (lookup_ge_None_2 l i Hge). apply lookup_ge_None_2.
    rewrite length_app. cbn. lia.
Qed.

(** X1: a successful [realizar_prestamo] (lines 139-151) changes the book it lends,
    the collection of the manager it is called on and nothing else: no user,
    no other book, no loan that existed, no other manager; it adds one loan
    object and reads the clock exactly twice. *)
Theorem realizar_prestamo_solo_toca_lo_suyo this b u w L U G :
  libros w !! b = Some L -> disponible L = true ->
  usuarios w !! u = Some U -> gestores w !! this = Some G ->
  exists p w',
    realizar_prestamo this b u w = Some (Some p, w') /\
    usuarios w' = usuarios w /\
    length (libros w') = length (libros w) /\
    (forall b', b' <> b -> libros w' !! b' = libros w !! b') /\
    length (objetos_prestamo w') = S (length (objetos_prestamo w)) /\
    (forall q, q <> p -> objetos_prestamo w' !! q = objetos_prestamo w !! q) /\
    length (gestores w') = length (gestores w) /\
    (forall g, g <> this -> gestores w' !! g = gestores w !! g) /\
    lecturas w' = S (S (lecturas w)) /\ reloj w' = reloj w /\ zona w' = zona w.
Proof.
  intros Hb Hd Hu Hg.
  exists (length (objetos_prestamo w)), (mundo_tras_prestamo this b u L U G w).
  split; [apply realizar_prestamo_disponible; assumption|].
  unfold mundo_tras_prestamo. simpl_mundo.
  split; [reflexivity|].
  split; [apply length_insert|].
  split; [intros b' Hne; apply list_lookup_insert_ne; congruence|].
  split; [rewrite length_app; cbn; lia|].
  split; [intros q Hne; apply lookup_snoc_otro, Hne|].
  split; [apply length_insert|].
  split; [intros g Hne; apply list_lookup_insert_ne; congruence|].
  repeat split.
Qed.

Lemma realizar_prestamo_solo_toca_lo_suyo_witness :
  libros (mundo_dos_gestores 0) !! 1%nat = Some libro_cien_anios /\
  exists p w',
    realizar_prestamo 1 1 1 (mundo_dos_gestores 0) = Some (Some p, w') /\
    libros w' !! 0%nat = libros (mundo_dos_gestores 0) !! 0%nat /\
    objetos_prestamo w' !! 0%nat = objetos_prestamo (mundo_dos_gestores 0) !! 0%nat /\
    gestores w' !! 0%nat = gestores (mundo_dos_gestores 0) !! 0%nat.
Proof.
  split; [reflexivity|].
  destruct (realizar_prestamo_solo_toca_lo_suyo 1 1 1 (mundo_dos_gestores 0)
              libro_cien_anios usuario_carlos
              (gestor_unico MultaEstudiante NotificadorSMS []))
    as (p & w' & H & _ & _ & Hl & Hn & Hp & _ & Hg & _); [reflexivity..|].
  exists p, w'. split; [exact H|].
  assert (p = 1%nat) as ->.
  { vm_compute in H. injection H as <- _. reflexivity. }
  split; [apply Hl; lia|]. split; [apply Hp; lia|]. apply Hg. lia.
Defined.

(** X2: on a loan not yet returned [devolver_libro] (lines 160-176) marks that loan
    returned, keeping its book, user and both dates, and makes its book
    available, keeping title, author and ISBN; every other loan and book,
    all users and all managers (their collections included) are as before,
    and the clock is read exactly once. *)
Theorem devolver_libro_pendiente_efecto this p w P L U G :
  objetos_prestamo w !! p = Some P -> devuelto P = false ->
  libros w !! libro P = Some L -> usuarios w !! usuario P = Some U ->
  gestores w !! this = Some G ->
  exists w',
    devolver_libro this p w = Some (tt, w') /\
    objetos_prestamo w' !! p
    = Some {| libro := libro P; usuario := usuario P;
              fecha_prestamo := fecha_prestamo P;
              fecha_devolucion := fecha_devolucion P; devuelto := true |} /\
    libros w' !! libro P
    = Some {| titulo := titulo L; autor := autor L; isbn := isbn L;
              disponible := true |} /\
    (forall q, q <> p -> objetos_prestamo w' !! q = objetos_prestamo w !! q) /\
    (forall b, b <> libro P -> libros w' !! b = libros w !! b) /\
    length (objetos_prestamo w') = length (objetos_prestamo w) /\
    length (libros w') = length (libros w) /\
    usuarios w' = usuarios w /\ gestores w' = gestores w /\
    lecturas w' = S (lecturas w) /\ reloj w' = reloj w /\ zona w' = zona w.
Proof.
  intros Hp Hd Hl Hu Hg.
  assert (Hw : exists informe,
             devolver_libro this p w
             = Some (tt, mundo_tras_devolucion p P L U informe w)).
  { destruct (Z.lt_ge_cases (fecha_devolucion P) (reloj w (lecturas w))) as [Ht|Ht].
    - eexists. apply devolver_libro_tarde; eassumption.
    - eexists. apply devolver_libro_a_tiempo; eassumption. }
  destruct Hw as [informe Hw].
  exists (mundo_tras_devolucion p P L U informe w). split; [exact Hw|].
  unfold mundo_tras_devolucion. simpl_mundo.
  split; [eapply lookup_insert_mismo, Hp|].
  split; [eapply lookup_insert_mismo, Hl|].
  split; [intros q Hne; apply list_lookup_insert_ne; congruence|].
  split; [intros b Hne; apply list_lookup_insert_ne; congruence|].
  split; [apply length_insert|]. split; [apply length_insert|].
  repeat split.
Qed.

Lemma devolver_libro_pendiente_efecto_witness :
  objetos_prestamo (mundo_dos_gestores (20 * un_dia)) !! 0%nat
  = Some (prestamo_ana false) /\
  exists w',
    devolver_libro 1 0 (mundo_dos_gestores (20 * un_dia)) = Some (tt, w') /\
    objetos_prestamo w' !! 0%nat = Some (prestamo_ana true) /\
    libros w' !! 0%nat = Some (libro_1984 true) /\
    libros w' !! 1%nat = Some libro_cien_anios /\
    gestores w' = gestores (mundo_dos_gestores (20 * un_dia)).
Proof.
  split; [reflexivity|].
  destruct (devolver_libro_pendiente_efecto 1 0 (mundo_dos_gestores (20 * un_dia))
              (prestamo_ana false) (libro_1984 false) usuario_ana
              (gestor_unico MultaEstudiante NotificadorSMS []))
    as (w' & H & Hp & Hl & _ & Hb & _ & _ & _ & Hg & _); [reflexivity..|].
  exists w'. split; [exact H|]. split; [exact Hp|]. split; [exact Hl|].
  split; [|exact Hg]. rewrite Hb by (cbn; lia). reflexivity.
Defined.

(** X3: [devolver_libro] (lines 154-177) uses the manager it is called on
    for one thing only, its fine calculator (line 166): called on two
    managers with the same calculator it does the same, whichever of them
    holds the loan in its collection, if any. *)
Theorem devolver_libro_solo_usa_la_calculadora this this' p w G G' :
  gestores w !! this = Some G -> gestores w !! this' = Some G' ->
  calculadora_multa G = calculadora_multa G' ->
  devolver_libro this p w = devolver_libro this' p w.
Proof.
  intros Hg Hg' Hc. unfold devolver_libro.
  destruct (objetos_prestamo w !! p) as [P|] eqn:Hp.
  2: { rewrite !(bind_M_None _ _ _ (leer_prestamo_None _ _ Hp)). reflexivity. }
  rewrite !(bind_M_Some _ _ _ _ _ (leer_prestamo_Some _ _ _ Hp)).
  destruct (devuelto P); [reflexivity|].
  rewrite !(bind_M_Some _ _ _ _ _ (new_Date_eq _)).
  destruct (fecha_devolucion P <? reloj w (lecturas w)); [|reflexivity].
  rewrite (bind_M (leer_gestor this ≫= _)), (bind_M (leer_gestor this' ≫= _)).
  erewrite (bind_M_Some (leer_gestor this)) by (apply leer_gestor_Some; exact Hg).
  erewrite (bind_M_Some (leer_gestor this')) by (apply leer_gestor_Some; exact Hg').
  rewrite Hc. reflexivity.
Qed.

Lemma devolver_libro_solo_usa_la_calculadora_witness :
  gestores (mundo_de (reloj_prestamo 0 (20 * un_dia)) zona_utc
              (programa_prestamo MultaVIP NotificadorEmail
                 ++ [OpNewGestorPrestamos MultaVIP NotificadorSMS])) !! 1%nat
  = Some (gestor_unico MultaVIP NotificadorSMS []) /\
  devolver_libro 0 0
    (mundo_de (reloj_prestamo 0 (20 * un_dia)) zona_utc
       (programa_prestamo MultaVIP NotificadorEmail
          ++ [OpNewGestorPrestamos MultaVIP NotificadorSMS]))
  = devolver_libro 1 0
      (mundo_de (reloj_prestamo 0 (20 * un_dia)) zona_utc
         (programa_prestamo MultaVIP NotificadorEmail
            ++ [OpNewGestorPrestamos MultaVIP NotificadorSMS])).
Proof.
  split; [reflexivity|].
  apply (devolver_libro_solo_usa_la_calculadora 0 1 0 _
           (gestor_unico MultaVIP NotificadorEmail [0%nat])
           (gestor_unico MultaVIP NotificadorSMS [])); reflexivity.
Defined.

(** ** How the two methods compose *)

(** X4: once [devolver_libro] has returned a pending loan, the book can be
    lent again at once, by any manager to any user: [realizar_prestamo]
    succeeds and creates a second loan object for the same book, while the
    first one stays in the store, returned. *)
Theorem devolver_libro_permite_prestar_de_nuevo this p w w1 P g u U G :
  objetos_prestamo w !! p = Some P -> devuelto P = false ->
  devolver_libro this p w = Some (tt, w1) ->
  usuarios w !! u = Some U -> gestores w !! g = Some G ->
  exists p' P' w2,
    realizar_prestamo g (libro P) u w1 = Some (Some p', w2) /\
    p' <> p /\ objetos_prestamo w1 !! p' = None /\
    objetos_prestamo w2 !! p' = Some P' /\
    libro P' = libro P /\ usuario P' = u /\ devuelto P' = false /\
    (exists P1, objetos_prestamo w2 !! p = Some P1 /\ libro P1 = libro P /\
                devuelto P1 = true).
Proof.
  intros Hp Hd Hdev Hu Hg.
  apply devolver_libro_inv in Hdev
    as (P0 & Hp0 & [(Hd0 & _)|(_ & L & U0 & informe & Hl & _ & -> & _)]).
  { congruence. }
  assert (P0 = P) as -> by congruence.
  set (w1 := mundo_tras_devolucion p P L U0 informe w).
  assert (Hl1 : libros w1 !! libro P = Some (con_disponible true L))
    by (apply (lookup_insert_mismo _ _ _ _ Hl)).
  exists (length (objetos_prestamo w1)), (prestamo_nuevo w1 (libro P) u),
    (mundo_tras_prestamo g (libro P) u (con_disponible true L) U G w1).
  split; [apply realizar_prestamo_disponible; [exact Hl1|reflexivity|exact Hu|exact Hg]|].
  assert (Hlen : (p < length (objetos_prestamo w1))%nat).
  { unfold w1, mundo_tras_devolucion. simpl_mundo. rewrite length_insert.
    eapply lookup_lt_Some, Hp. }
  split; [lia|]. split; [apply lookup_ge_None_2; lia|].
  unfold mundo_tras_prestamo. simpl_mundo.
  split; [apply lookup_nuevo|]. do 3 (split; [reflexivity|]).
  exists (con_devuelto true P). split; [|split; reflexivity].
  apply lookup_app_l_Some. unfold w1, mundo_tras_devolucion. simpl_mundo.
  eapply lookup_insert_mismo, Hp.
Qed.

Lemma devolver_libro_permite_prestar_de_nuevo_witness :
  objetos_prestamo (mundo_dos_gestores 0) !! 0%nat = Some (prestamo_ana false) /\
  devolver_libro 0 0 (mundo_dos_gestores 0)
  = Some (tt, mundo_dos_gestores_devuelto) /\
  exists p' P' w2,
    realizar_prestamo 1 0 1 mundo_dos_gestores_devuelto = Some (Some p', w2) /\
    p' <> 0%nat /\
    objetos_prestamo w2 !! p' = Some P' /\ devuelto P' = false.
Proof.
  assert (H1 : devolver_libro 0 0 (mundo_dos_gestores 0)
               = Some (tt, mundo_dos_gestores_devuelto))
    by (vm_compute; reflexivity).
  split; [reflexivity|]. split; [exact H1|].
  destruct (devolver_libro_permite_prestar_de_nuevo 0 0 (mundo_dos_gestores 0)
              mundo_dos_gestores_devuelto
              (prestamo_ana false) 1 1 usuario_carlos
              (gestor_unico MultaEstudiante NotificadorSMS []))
    as (p' & P' & w2 & H & Hne & _ & HP' & _ & _ & Hd & _);
    [reflexivity|reflexivity|exact H1|reflexivity|reflexivity|].
  exists p', P', w2. exact (conj H (conj Hne (conj HP' Hd))).
Defined.

(** X5: after a successful [realizar_prestamo] of a book, a further
    [realizar_prestamo] of that book, on any manager and for any user, is
    rejected with [null] and changes no object. *)
Theorem realizar_prestamo_impide_otro this b u w p w1 this' u' :
  realizar_prestamo this b u w = Some (Some p, w1) ->
  exists w2,
    realizar_prestamo this' b u' w1 = Some (None, w2) /\
    libros w2 = libros w1 /\ usuarios w2 = usuarios w1 /\
    objetos_prestamo w2 = objetos_prestamo w1 /\ gestores w2 = gestores w1.
Proof.
  intros H.
  apply realizar_prestamo_inv in H
    as (L & Hb & [(_ & Hr & _)|(_ & U & G & _ & _ & _ & ->)]); [discriminate|].
  exists (mundo_tras_rechazo (con_disponible false L)
            (mundo_tras_prestamo this b u L U G w)).
  split; [|repeat split].
  apply realizar_prestamo_no_disponible; [|reflexivity].
  unfold mundo_tras_prestamo. simpl_mundo. eapply lookup_insert_mismo, Hb.
Qed.

Lemma realizar_prestamo_impide_otro_witness :
  realizar_prestamo 0 0 0 (mundo_biblioteca (reloj_prestamo 0 0) NotificadorEmail)
  = Some (Some 0%nat, mundo_prestado MultaEstandar 0) /\
  exists w2,
    realizar_prestamo 0 0 0 (mundo_prestado MultaEstandar 0) = Some (None, w2) /\
    objetos_prestamo w2 = objetos_prestamo (mundo_prestado MultaEstandar 0).
Proof.
  assert (H1 : realizar_prestamo 0 0 0
                 (mundo_biblioteca (reloj_prestamo 0 0) NotificadorEmail)
               = Some (Some 0%nat, mundo_prestado MultaEstandar 0))
    by (vm_compute; reflexivity).
  split; [exact H1|].
  destruct (realizar_prestamo_impide_otro 0 0 0 _ 0%nat _ 0%nat 0%nat H1)
    as (w2 & H & _ & _ & Ho & _).
  exists w2. exact (conj H Ho).
Defined.

(** ** What no operation undoes *)

Lemma sigue_refl w : sigue w w.
Proof.
  split; eauto.
  - intros g G Hg. exists G, []. rewrite app_nil_r. eauto.
  - exists []. rewrite app_nil_r. reflexivity.
Qed.

Lemma sigue_trans w1 w2 w3 : sigue w1 w2 -> sigue w2 w3 -> sigue w1 w3.
Proof.
  intros [A1 A2 A3 A4 A5 A6] [B1 B2 B3 B4 B5 B6]. split.
  - eauto.
  - intros b L Hb. destruct (A2 b L Hb) as (L1 & HL1 & Ha & Hb1 & Hc).
    destruct (B2 b L1 HL1) as (L2 & HL2 & Ha' & Hb' & Hc').
    exists L2. repeat split; congruence.
  - intros p P Hp. destruct (A3 p P Hp) as (P1 & HP1 & Ha & Hb & Hc).
    destruct (B3 p P1 HP1) as (P2 & HP2 & Ha' & Hb' & Hc').
    exists P2. repeat split; congruence.
  - intros g G Hg. destruct (A4 g G Hg) as (G1 & n1 & HG1 & Ha & Hb & Hn1).
    destruct (B4 g G1 HG1) as (G2 & n2 & HG2 & Ha' & Hb' & Hn2).
    exists G2, (n1 ++ n2). repeat split; try congruence.
    rewrite Hn2, Hn1, app_assoc. reflexivity.
  - destruct A5 as [n1 Hn1], B5 as [n2 Hn2]. exists (n1 ++ n2).
    rewrite Hn2, Hn1, app_assoc. reflexivity.
  - destruct A6 as (Ha & Hb & Hc), B6 as (Ha' & Hb' & Hc').
    repeat split; try congruence. lia.
Qed.

(** Building [sigue] from what each store does. *)
Lemma sigue_por_partes w w' :
  (forall u U, usuarios w !! u = Some U -> usuarios w' !! u = Some U) ->
  (forall b L, libros w !! b = Some L ->
     exists L', libros w' !! b = Some L' /\
       titulo L' = titulo L /\ autor L' = autor L /\ isbn L' = isbn L) ->
  (forall p P, objetos_prestamo w !! p = Some P ->
     exists P', objetos_prestamo w' !! p = Some P' /\
       libro P' = libro P /\ usuario P' = usuario P /\
       fecha_prestamo P' = fecha_prestamo P) ->
  (forall g G, gestores w !! g = Some G ->
     exists G' nuevos, gestores w' !! g = Some G' /\
       calculadora_multa G' = calculadora_multa G /\
       notificador G' = notificador G /\
       prestamos G' = prestamos G ++ nuevos) ->
  (exists nuevos, traza w' = traza w ++ nuevos) ->
  reloj w' = reloj w -> zona w' = zona w -> (lecturas w <= lecturas w')%nat ->
  sigue w w'.
Proof. intros. split; auto. Qed.

Lemma mismo_libro (L : Libro) :
  exists L', Some L = Some L' /\
    titulo L' = titulo L /\ autor L' = autor L /\ isbn L' = isbn L.
Proof. exists L. repeat split. Qed.

Lemma mismo_prestamo (P : Prestamo) :
  exists P', Some P = Some P' /\
    libro P' = libro P /\ usuario P' = usuario P /\
    fecha_prestamo P' = fecha_prestamo P.
Proof. exists P. repeat split. Qed.

Lemma mismo_gestor (G : GestorPrestamos) :
  exists G' nuevos, Some G = Some G' /\
    calculadora_multa G' = calculadora_multa G /\
    notificador G' = notificador G /\
    prestamos G' = prestamos G ++ nuevos.
Proof. exists G, []. rewrite app_nil_r. repeat split. Qed.

(** Closes the parts of [sigue] about a store that did not change. *)
Ltac sigue_igual :=
  try (intros ? ? Hx; rewrite Hx;
       first [reflexivity | apply mismo_libro | apply mismo_prestamo
             | apply mismo_gestor]);
  try reflexivity; try lia;
  try (exists []; rewrite app_nil_r; reflexivity);
  try (eexists; reflexivity).

Lemma sigue_tras_prestamo this b u L U G w :
  libros w !! b = Some L -> gestores w !! this = Some G ->
  sigue w (mundo_tras_prestamo this b u L U G w).
Proof.
  intros Hb Hg. unfold mundo_tras_prestamo.
  apply sigue_por_partes; simpl_mundo; sigue_igual.
  - intros b' L' Hb'. destruct (decide (b = b')) as [<-|Hne].
    + exists (con_disponible false L). rewrite (lookup_insert_mismo _ _ _ _ Hb).
      assert (L' = L) as -> by congruence. repeat split.
    + rewrite list_lookup_insert_ne by exact Hne. rewrite Hb'. apply mismo_libro.
  - intros p P Hp. rewrite (lookup_app_l_Some _ _ _ _ Hp). apply mismo_prestamo.
  - intros g G0 Hg0. destruct (decide (this = g)) as [<-|Hne].
    + assert (G0 = G) as -> by congruence.
      eexists _, _. rewrite (lookup_insert_mismo _ _ _ _ Hg).
      repeat split.
    + rewrite list_lookup_insert_ne by exact Hne. rewrite Hg0. apply mismo_gestor.
Qed.

Lemma sigue_tras_devolucion p P L U informe w :
  objetos_prestamo w !! p = Some P -> libros w !! libro P = Some L ->
  sigue w (mundo_tras_devolucion p P L U informe w).
Proof.
  intros Hp Hl. unfold mundo_tras_devolucion.
  apply sigue_por_partes; simpl_mundo; sigue_igual.
  - intros b' L' Hb'. destruct (decide (libro P = b')) as [<-|Hne].
    + exists (con_disponible true L). rewrite (lookup_insert_mismo _ _ _ _ Hl).
      assert (L' = L) as -> by congruence. repeat split.
    + rewrite list_lookup_insert_ne by exact Hne. rewrite Hb'. apply mismo_libro.
  - intros q Q Hq. destruct (decide (p = q)) as [<-|Hne].
    + exists (con_devuelto true P). rewrite (lookup_insert_mismo _ _ _ _ Hp).
      assert (Q = P) as -> by congruence. repeat split.
    + rewrite list_lookup_insert_ne by exact Hne. rewrite Hq. apply mismo_prestamo.
Qed.

Lemma sigue_solo_traza nuevos w :
  sigue w (con_traza (fun t => t ++ nuevos) w).
Proof. apply sigue_por_partes; simpl_mundo; sigue_igual. Qed.

Lemma paso_sigue o w w' : paso o w = Some (tt, w') -> sigue w w'.
Proof.
  intros H. destruct o as [t a i|n i|c n|g b u|g p|p t]; cbn [paso] in H.
  - injection H as <-. apply sigue_por_partes; simpl_mundo; sigue_igual.
    intros b L Hb. rewrite (lookup_app_l_Some _ _ _ _ Hb). apply mismo_libro.
  - injection H as <-. apply sigue_por_partes; simpl_mundo; sigue_igual.
    intros u U Hu. apply lookup_app_l_Some, Hu.
  - injection H as <-. apply sigue_por_partes; simpl_mundo; sigue_igual.
    intros g G Hg. rewrite (lookup_app_l_Some _ _ _ _ Hg). apply mismo_gestor.
  - rewrite bind_M in H.
    destruct (realizar_prestamo g b u w) as [[r w1]|] eqn:Hr; [|discriminate].
    injection H as <-.
    apply realizar_prestamo_inv in Hr
      as (L & Hb & [(Hd & _ & ->)|(Hd & U & G & Hu & Hg & _ & ->)]).
    + apply sigue_solo_traza.
    + apply sigue_tras_prestamo; assumption.
  - apply devolver_libro_inv in H
      as (P & Hp & [(Hd & ->)|(Hd & L & U & informe & Hl & Hu & -> & _)]).
    + apply sigue_solo_traza.
    + apply sigue_tras_devolucion; assumption.
  - destruct (objetos_prestamo w !! p) as [P|] eqn:Hp.
    + rewrite (escribir_prestamo_Some _ _ _ _ Hp) in H. injection H as <-.
      apply sigue_por_partes; simpl_mundo; sigue_igual.
      intros q Q Hq. destruct (decide (p = q)) as [<-|Hne].
      * exists (con_fecha_devolucion t P).
        rewrite (lookup_insert_mismo _ _ _ _ Hp).
        assert (Q = P) as -> by congruence. repeat split.
      * rewrite list_lookup_insert_ne by exact Hne. rewrite Hq.
        apply mismo_prestamo.
    + rewrite (escribir_prestamo_None _ _ _ Hp) in H. discriminate.
Qed.

Lemma ejecutar_sigue ops w w' : ejecutar ops w = Some (tt, w') -> sigue w w'.
Proof.
  revert w. induction ops as [|o ops IH]; intros w H.
  - injection H as <-. apply sigue_refl.
  - rewrite ejecutar_cons in H.
    destruct (paso o w) as [[[] w1]|] eqn:Hp; [|discriminate].
    eapply sigue_trans; [eapply paso_sigue, Hp|apply IH, H].
Qed.

(** ** What holds in every world a program reaches *)

(** X6: a book never has two loans that are not returned. *)
Theorem un_prestamo_pendiente_por_libro w p p' P P' :
  alcanzable w ->
  objetos_prestamo w !! p = Some P -> objetos_prestamo w !! p' = Some P' ->
  libro P = libro P' -> devuelto P = false -> devuelto P' = false -> p = p'.
Proof.
  intros Hw HP HP' Hl Hd Hd'. apply alcanzable_coherente in Hw as [_ _ _ H4].
  eapply H4; eassumption.
Qed.

Lemma un_prestamo_pendiente_por_libro_witness :
  alcanzable (mundo_dos_gestores 0) /\
  objetos_prestamo (mundo_dos_gestores 0) !! 0%nat = Some (prestamo_ana false) /\
  forall p' P', objetos_prestamo (mundo_dos_gestores 0) !! p' = Some P' ->
    libro P' = 0%nat -> devuelto P' = false -> 0%nat = p'.
Proof.
  assert (Hw : alcanzable (mundo_dos_gestores 0)).
  { apply (alcanzable_mundo_de (reloj_prestamo 0 0) zona_utc
             (programa_dos_gestores ++ [OpRealizarPrestamo 0 0 0])).
    vm_compute. reflexivity. }
  split; [exact Hw|]. split; [reflexivity|].
  intros p' P' HP' Hl' Hd'.
  apply (un_prestamo_pendiente_por_libro (mundo_dos_gestores 0) 0 p'
           (prestamo_ana false) P' Hw eq_refl HP');
    [symmetry; exact Hl'|reflexivity|exact Hd'].
Defined.

Lemma repartido_inicial r z : repartido (mundo_inicial r z).
Proof.
  split; cbn.
  - intros g G q H. rewrite lookup_nil in H. discriminate.
  - intros g G H. rewrite lookup_nil in H. discriminate.
  - intros g g' G G' q H. rewrite lookup_nil in H. discriminate.
Qed.

Lemma repartido_mismos w w' :
  gestores w' = gestores w ->
  length (objetos_prestamo w') = length (objetos_prestamo w) ->
  repartido w -> repartido w'.
Proof.
  intros Hg Hl [H1 H2 H3]. split; rewrite ?Hg, ?Hl; assumption.
Qed.

Lemma repartido_new_GestorPrestamos c n w :
  repartido w ->
  repartido (con_gestores (fun gs => gs ++
    [{| calculadora_multa := c; notificador := n; prestamos := [] |}]) w).
Proof.
  intros [H1 H2 H3]. split; simpl_mundo.
  - intros g G q Hg Hq. apply lookup_snoc_Some in Hg as [[_ Hg]|[_ <-]].
    + eapply H1; eassumption.
    + cbn in Hq. apply elem_of_nil in Hq. destruct Hq.
  - intros g G Hg. apply lookup_snoc_Some in Hg as [[_ Hg]|[_ <-]].
    + eapply H2; eassumption.
    + apply NoDup_nil_2.
  - intros g g' G G' q Hg Hg' Hq Hq'.
    apply lookup_snoc_Some in Hg as [[_ Hg]|[_ <-]];
      [|cbn in Hq; apply elem_of_nil in Hq; destruct Hq].
    apply lookup_snoc_Some in Hg' as [[_ Hg']|[_ <-]];
      [|cbn in Hq'; apply elem_of_nil in Hq'; destruct Hq'].
    eapply H3; eassumption.
Qed.

Lemma repartido_tras_prestamo this b u L U G w :
  gestores w !! this = Some G ->
  repartido w -> repartido (mundo_tras_prestamo this b u L U G w).
Proof.
  intros Hthis [H1 H2 H3]. unfold mundo_tras_prestamo.
  assert (Hnuevo : forall g G0, gestores w !! g = Some G0 ->
                     length (objetos_prestamo w) ∉ prestamos G0).
  { intros g G0 Hg Hin. specialize (H1 g G0 _ Hg Hin). lia. }
  assert (Hcaso : forall g G',
             <[this := con_prestamos (prestamos G ++ [length (objetos_prestamo w)]) G]>
               (gestores w) !! g = Some G' ->
             (g = this /\ prestamos G' = prestamos G ++ [length (objetos_prestamo w)])
             \/ (g <> this /\ gestores w !! g = Some G')).
  { intros g G' Hg. apply list_lookup_insert_Some in Hg as [(<- & <- & _)|[Hne Hg]].
    - left. split; reflexivity.
    - right. split; [congruence|exact Hg]. }
  split; simpl_mundo.
  - intros g G' q Hg Hq. rewrite length_app. cbn.
    destruct (Hcaso g G' Hg) as [[-> Hp]|[Hne Hg0]].
    + rewrite Hp in Hq. apply elem_of_app in Hq as [Hq|Hq].
      * specialize (H1 this G q Hthis Hq). lia.
      * apply list_elem_of_singleton in Hq. lia.
    + specialize (H1 g G' q Hg0 Hq). lia.
  - intros g G' Hg. destruct (Hcaso g G' Hg) as [[-> Hp]|[Hne Hg0]].
    + rewrite Hp. apply NoDup_app. split; [eapply H2, Hthis|].
      split; [|apply NoDup_singleton].
      intros q Hq Hq'. apply list_elem_of_singleton in Hq'. subst q.
      eapply Hnuevo; eassumption.
    + eapply H2, Hg0.
  - intros g g' G1 G2 q Hg Hg' Hq Hq'.
    destruct (Hcaso g G1 Hg) as [[-> Hp]|[Hne Hg0]];
      destruct (Hcaso g' G2 Hg') as [[-> Hp']|[Hne' Hg0']].
    + reflexivity.
    + rewrite Hp in Hq. apply elem_of_app in Hq as [Hq|Hq].
      * eapply H3; eassumption.
      * apply list_elem_of_singleton in Hq. subst q.
        exfalso. eapply Hnuevo; eassumption.
    + rewrite Hp' in Hq'. apply elem_of_app in Hq' as [Hq'|Hq'].
      * eapply H3; eassumption.
      * apply list_elem_of_singleton in Hq'. subst q.
        exfalso. eapply Hnuevo; eassumption.
    + eapply H3; eassumption.
Qed.

Lemma paso_repartido o w w' :
  paso o w = Some (tt, w') -> repartido w -> repartido w'.
Proof.
  intros H Hr. destruct o as [t a i|n i|c n|g b u|g p|p t]; cbn [paso] in H.
  - injection H as <-. eapply repartido_mismos; [..|exact Hr]; reflexivity.
  - injection H as <-. eapply repartido_mismos; [..|exact Hr]; reflexivity.
  - injection H as <-. apply repartido_new_GestorPrestamos, Hr.
  - rewrite bind_M in H.
    destruct (realizar_prestamo g b u w) as [[r w1]|] eqn:Hp; [|discriminate].
    injection H as <-.
    apply realizar_prestamo_inv in Hp
      as (L & Hb & [(Hd & _ & ->)|(Hd & U & G & Hu & Hg & _ & ->)]).
    + eapply repartido_mismos; [..|exact Hr]; reflexivity.
    + apply repartido_tras_prestamo; assumption.
  - apply devolver_libro_inv in H
      as (P & Hp & [(Hd & ->)|(Hd & L & U & informe & Hl & Hu & -> & _)]).
    + eapply repartido_mismos; [..|exact Hr]; reflexivity.
    + eapply repartido_mismos; [..|exact Hr]; [reflexivity|].
      unfold mundo_tras_devolucion. simpl_mundo. apply length_insert.
  - destruct (objetos_prestamo w !! p) as [P|] eqn:Hp.
    + rewrite (escribir_prestamo_Some _ _ _ _ Hp) in H. injection H as <-.
      eapply repartido_mismos; [..|exact Hr]; [reflexivity|].
      simpl_mundo. apply length_insert.
    + rewrite (escribir_prestamo_None _ _ _ Hp) in H. discriminate.
Qed.

Lemma ejecutar_repartido ops w w' :
  ejecutar ops w = Some (tt, w') -> repartido w -> repartido w'.
Proof.
  revert w. induction ops as [|o ops IH]; intros w H Hr.
  - injection H as <-. exact Hr.
  - rewrite ejecutar_cons in H.
    destruct (paso o w) as [[[] w1]|] eqn:Hp; [|discriminate].
    eapply IH; [exact H|]. eapply paso_repartido; eassumption.
Qed.

(** X7: every loan object is held by exactly one manager, once: it is in
    the collection of some manager, in no other manager's, and no collection
    lists a loan twice; and every reference in a collection denotes a loan
    object. *)
Theorem cada_prestamo_en_un_gestor w :
  alcanzable w ->
  (forall p, is_Some (objetos_prestamo w !! p) ->
     exists g G, gestores w !! g = Some G /\ p ∈ prestamos G /\
       forall g' G', gestores w !! g' = Some G' -> p ∈ prestamos G' -> g' = g) /\
  (forall g G, gestores w !! g = Some G ->
     NoDup (prestamos G) /\
     forall q, q ∈ prestamos G -> is_Some (objetos_prestamo w !! q)).
Proof.
  intros Hw. pose proof (alcanzable_coherente w Hw) as [_ H2 _ _].
  destruct Hw as (r & z & ops & He).
  pose proof (ejecutar_repartido _ _ _ He (repartido_inicial r z)) as [R1 R2 R3].
  split.
  - intros p Hp. destruct (H2 p Hp) as (g & G & Hg & Hin).
    exists g, G. split; [exact Hg|]. split; [exact Hin|].
    intros g' G' Hg' Hin'. eapply R3; eassumption.
  - intros g G Hg. split; [eapply R2, Hg|].
    intros q Hq. apply lookup_lt_is_Some. eapply R1; eassumption.
Qed.

Lemma cada_prestamo_en_un_gestor_witness :
  alcanzable mundo_dos_gestores_devuelto /\
  exists g G, gestores mundo_dos_gestores_devuelto !! g = Some G /\
    0%nat ∈ prestamos G /\
    forall g' G', gestores mundo_dos_gestores_devuelto !! g' = Some G' ->
      0%nat ∈ prestamos G' -> g' = g.
Proof.
  assert (Hw : alcanzable mundo_dos_gestores_devuelto).
  { apply (alcanzable_mundo_de (reloj_prestamo 0 0) zona_utc
             (programa_dos_gestores
                ++ [OpRealizarPrestamo 0 0 0; OpDevolverLibro 0 0])).
    vm_compute. reflexivity. }
  split; [exact Hw|].
  destruct (cada_prestamo_en_un_gestor _ Hw) as [H _].
  apply (H 0%nat). eexists. reflexivity.
Defined.

Lemma llamadas_enviar_eventos_prestamo G L U P :
  llamadas_enviar (eventos_prestamo G L U P)
  = [Llamada_enviar (mensaje_prestamo (titulo L) (fecha_devolucion P)) (nombre U)
       (fst (enviar (notificador G)
               (mensaje_prestamo (titulo L) (fecha_devolucion P)) (nombre U)))].
Proof.
  unfold eventos_prestamo. cbv zeta.
  rewrite llamadas_enviar_app, llamadas_enviar_consola. reflexivity.
Qed.

Lemma llamadas_enviar_informe_tarde G fd fa :
  llamadas_enviar (informe_tarde G fd fa) = [].
Proof.
  unfold informe_tarde. cbv zeta.
  rewrite llamadas_enviar_app, llamadas_enviar_consola. reflexivity.
Qed.

Lemma avisados_inicial r z : avisados (mundo_inicial r z).
Proof. split; [reflexivity|]. intros k e H. cbn in H. discriminate. Qed.

(** Operations that issue no loan keep [avisados]. *)
Lemma avisados_sigue w w' :
  sigue w w' ->
  llamadas_enviar (traza w') = llamadas_enviar (traza w) ->
  length (objetos_prestamo w') = length (objetos_prestamo w) ->
  avisados w -> avisados w'.
Proof.
  intros [S1 S2 S3 _ _ _] Ht Hl [A1 A2]. split; [congruence|].
  intros k e He. rewrite Ht in He.
  destruct (A2 k e He) as (P & L & U & f & r & HP & HL & HU & ->).
  destruct (S3 k P HP) as (P' & HP' & Hlib & Husu & _).
  destruct (S2 _ L HL) as (L' & HL' & Htit & _).
  exists P', L', U, f, r. rewrite Hlib, Husu, Htit. eauto.
Qed.

Lemma avisados_tras_prestamo this b u L U G w :
  libros w !! b = Some L -> usuarios w !! u = Some U ->
  gestores w !! this = Some G ->
  avisados w -> avisados (mundo_tras_prestamo this b u L U G w).
Proof.
  intros Hb Hu Hg [A1 A2].
  pose proof (sigue_tras_prestamo this b u L U G w Hb Hg) as [S1 S2 S3 _ _ _].
  revert S1 S2 S3. unfold avisados, mundo_tras_prestamo. simpl_mundo.
  intros S1 S2 S3.
  rewrite llamadas_enviar_app, llamadas_enviar_eventos_prestamo.
  split; [rewrite !length_app; cbn; lia|].
  intros k e He. apply lookup_snoc_Some in He as [[_ He]|[Hk <-]].
  - destruct (A2 k e He) as (P & L0 & U0 & f & r & HP & HL & HU & ->).
    destruct (S3 k P HP) as (P' & HP' & Hlib & Husu & _).
    destruct (S2 _ L0 HL) as (L' & HL' & Htit & _).
    exists P', L', U0, f, r. rewrite Hlib, Husu, Htit. eauto.
  - rewrite A1 in Hk. subst k.
    exists (prestamo_nuevo w b u), (con_disponible false L), U.
    eexists _, _. split; [apply lookup_nuevo|].
    cbn [prestamo_nuevo libro usuario].
    split; [eapply lookup_insert_mismo, Hb|]. split; [exact Hu|]. reflexivity.
Qed.

Lemma paso_avisados o w w' :
  paso o w = Some (tt, w') -> avisados w -> avisados w'.
Proof.
  intros H Ha. pose proof (paso_sigue _ _ _ H) as Hs.
  destruct o as [t a i|n i|c n|g b u|g p|p t]; cbn [paso] in H.
  - injection H as <-. apply (avisados_sigue _ _ Hs); [reflexivity..|exact Ha].
  - injection H as <-. apply (avisados_sigue _ _ Hs); [reflexivity..|exact Ha].
  - injection H as <-. apply (avisados_sigue _ _ Hs); [reflexivity..|exact Ha].
  - rewrite bind_M in H.
    destruct (realizar_prestamo g b u w) as [[r w1]|] eqn:Hr; [|discriminate].
    injection H as <-.
    apply realizar_prestamo_inv in Hr
      as (L & Hb & [(Hd & _ & ->)|(Hd & U & G & Hu & Hg & _ & ->)]).
    + apply (avisados_sigue _ _ Hs); [|reflexivity|exact Ha].
      unfold mundo_tras_rechazo. simpl_mundo.
      rewrite llamadas_enviar_app. apply app_nil_r.
    + apply avisados_tras_prestamo; assumption.
  - apply devolver_libro_inv in H
      as (P & Hp & [(Hd & ->)|(Hd & L & U & informe & Hl & Hu & -> & Hi)]).
    + apply (avisados_sigue _ _ Hs); [|reflexivity|exact Ha].
      unfold mundo_tras_ya_devuelto. simpl_mundo.
      rewrite llamadas_enviar_app. apply app_nil_r.
    + apply (avisados_sigue _ _ Hs); [| |exact Ha];
        unfold mundo_tras_devolucion; simpl_mundo; [|apply length_insert].
      rewrite !llamadas_enviar_app.
      destruct Hi as [[_ ->]|(_ & G & _ & ->)];
        rewrite ?llamadas_enviar_informe_tarde; apply app_nil_r.
  - destruct (objetos_prestamo w !! p) as [P|] eqn:Hp.
    + rewrite (escribir_prestamo_Some _ _ _ _ Hp) in H. injection H as <-.
      apply (avisados_sigue _ _ Hs); [reflexivity| |exact Ha].
      simpl_mundo. apply length_insert.
    + rewrite (escribir_prestamo_None _ _ _ Hp) in H. discriminate.
Qed.

Lemma ejecutar_avisados ops w w' :
  ejecutar ops w = Some (tt, w') -> avisados w -> avisados w'.
Proof.
  revert w. induction ops as [|o ops IH]; intros w H Ha.
  - injection H as <-. exact Ha.
  - rewrite ejecutar_cons in H.
    destruct (paso o w) as [[[] w1]|] eqn:Hp; [|discriminate].
    eapply IH; [exact H|]. eapply paso_avisados; eassumption.
Qed.

(** X8: there is one call of [enviar] for each loan ever issued, no more
    and no fewer, in the order of issue; the call for a loan was addressed to
    the name of the loan's user, with the message for the title of the
    loan's book. *)
Theorem un_aviso_por_prestamo w :
  alcanzable w ->
  length (llamadas_enviar (traza w)) = length (objetos_prestamo w) /\
  forall k P, objetos_prestamo w !! k = Some P ->
    exists L U fecha r,
      libros w !! libro P = Some L /\ usuarios w !! usuario P = Some U /\
      llamadas_enviar (traza w) !! k
      = Some (Llamada_enviar (mensaje_prestamo (titulo L) fecha) (nombre U) r).
Proof.
  intros (r & z & ops & He).
  pose proof (ejecutar_avisados _ _ _ He (avisados_inicial r z)) as [A1 A2].
  split; [exact A1|]. intros k P HP.
  destruct (llamadas_enviar (traza w) !! k) as [e|] eqn:Hk.
  - destruct (A2 k e Hk) as (P' & L & U & f & r' & HP' & HL & HU & ->).
    assert (P' = P) as -> by congruence. exists L, U, f, r'. eauto.
  - exfalso. apply lookup_ge_None in Hk. apply lookup_lt_Some in HP. lia.
Qed.

Lemma un_aviso_por_prestamo_witness :
  alcanzable mundo_ida_y_vuelta /\
  length (llamadas_enviar (traza mundo_ida_y_vuelta)) = 2%nat /\
  length (objetos_prestamo mundo_ida_y_vuelta) = 2%nat.
Proof.
  assert (Hw : alcanzable mundo_ida_y_vuelta).
  { apply (alcanzable_mundo_de (reloj_prestamo 0 (3 * un_dia)) zona_utc
             (programa_prestamo MultaEstandar NotificadorEmail
                ++ programa_ida_y_vuelta)).
    vm_compute. reflexivity. }
  split; [exact Hw|].
  destruct (un_aviso_por_prestamo _ Hw) as [H _].
  split; [rewrite H|]; reflexivity.
Defined.

(** X9: no sequence of operations changes a user, or the title, author or
    ISBN of a book; books and users are never removed. *)
Theorem ejecutar_conserva_libros_y_usuarios ops w w' :
  ejecutar ops w = Some (tt, w') ->
  (forall u U, usuarios w !! u = Some U -> usuarios w' !! u = Some U) /\
  (forall b L, libros w !! b = Some L ->
     exists L', libros w' !! b = Some L' /\
       titulo L' = titulo L /\ autor L' = autor L /\ isbn L' = isbn L).
Proof. intros H. apply ejecutar_sigue in H as [H1 H2 _ _ _ _]. split; assumption. Qed.

Lemma ejecutar_conserva_libros_y_usuarios_witness :
  ejecutar programa_ida_y_vuelta (mundo_prestado MultaEstandar (3 * un_dia))
  = Some (tt, mundo_ida_y_vuelta) /\
  usuarios mundo_ida_y_vuelta !! 0%nat = Some usuario_ana /\
  exists L', libros mundo_ida_y_vuelta !! 0%nat = Some L' /\ titulo L' = "1984"%string.
Proof.
  assert (He : ejecutar programa_ida_y_vuelta
                 (mundo_prestado MultaEstandar (3 * un_dia))
               = Some (tt, mundo_ida_y_vuelta)) by (vm_compute; reflexivity).
  split; [exact He|].
  destruct (ejecutar_conserva_libros_y_usuarios _ _ _ He) as [Hu Hl].
  split; [apply Hu; reflexivity|].
  destruct (Hl 0%nat (libro_1984 false) eq_refl) as (L' & HL' & Ht & _).
  exists L'. split; [exact HL'|exact Ht].
Defined.

Lemma paso_fecha_devolucion o w w' p P :
  paso o w = Some (tt, w') -> (forall t, o <> OpAsignarFechaDevolucion p t) ->
  objetos_prestamo w !! p = Some P ->
  exists P', objetos_prestamo w' !! p = Some P' /\
             fecha_devolucion P' = fecha_devolucion P.
Proof.
  intros H Hno HP.
  destruct o as [t a i|n i|c n|g b u|g q|q t]; cbn [paso] in H.
  - injection H as <-. exists P. split; [exact HP|reflexivity].
  - injection H as <-. exists P. split; [exact HP|reflexivity].
  - injection H as <-. exists P. split; [exact HP|reflexivity].
  - rewrite bind_M in H.
    destruct (realizar_prestamo g b u w) as [[r w1]|] eqn:Hr; [|discriminate].
    injection H as <-.
    apply realizar_prestamo_inv in Hr
      as (L & Hb & [(Hd & _ & ->)|(Hd & U & G & Hu & Hg & _ & ->)]).
    + exists P. split; [exact HP|reflexivity].
    + exists P. split; [|reflexivity]. unfold mundo_tras_prestamo. simpl_mundo.
      apply lookup_app_l_Some, HP.
  - apply devolver_libro_inv in H
      as (Q & Hq & [(Hd & ->)|(Hd & L & U & informe & Hl & Hu & -> & _)]).
    + exists P. split; [exact HP|reflexivity].
    + unfold mundo_tras_devolucion. simpl_mundo.
      destruct (decide (q = p)) as [->|Hne].
      * assert (Q = P) as -> by congruence. exists (con_devuelto true P).
        split; [eapply lookup_insert_mismo, HP|reflexivity].
      * exists P. rewrite list_lookup_insert_ne by exact Hne.
        split; [exact HP|reflexivity].
  - destruct (decide (q = p)) as [->|Hne]; [exfalso; apply (Hno t); reflexivity|].
    destruct (objetos_prestamo w !! q) as [Q|] eqn:Hq.
    + rewrite (escribir_prestamo_Some _ _ _ _ Hq) in H. injection H as <-.
      simpl_mundo. exists P. rewrite list_lookup_insert_ne by exact Hne.
      split; [exact HP|reflexivity].
    + rewrite (escribir_prestamo_None _ _ _ Hq) in H. discriminate.
Qed.

(** X10: no sequence of operations changes the book, the user or the loan
    date of a loan, and loans are never removed; the due date changes only
    by a caller's assignment: the two methods of the manager never change
    it. *)
Theorem ejecutar_conserva_prestamos ops w w' p P :
  ejecutar ops w = Some (tt, w') -> objetos_prestamo w !! p = Some P ->
  exists P', objetos_prestamo w' !! p = Some P' /\
    libro P' = libro P /\ usuario P' = usuario P /\
    fecha_prestamo P' = fecha_prestamo P /\
    ((forall t, OpAsignarFechaDevolucion p t ∉ ops) ->
     fecha_devolucion P' = fecha_devolucion P).
Proof.
  revert w P. induction ops as [|o ops IH]; intros w P H HP.
  - injection H as <-. exists P. repeat split. exact HP.
  - rewrite ejecutar_cons in H.
    destruct (paso o w) as [[[] w1]|] eqn:Hp; [|discriminate].
    destruct (sig_prestamos _ _ (paso_sigue _ _ _ Hp) p P HP)
      as (P1 & HP1 & Hl1 & Hu1 & Hf1).
    destruct (IH w1 P1 H HP1) as (P' & HP' & Hl & Hu & Hf & Hdev).
    exists P'. split; [exact HP'|]. repeat split; try congruence.
    intros Hno.
    destruct (paso_fecha_devolucion o w w1 p P Hp) as (P1' & HP1' & Hd1);
      [|exact HP|].
    { intros t ->. apply (Hno t). apply list_elem_of_here. }
    assert (P1' = P1) as -> by congruence.
    rewrite Hdev; [exact Hd1|].
    intros t Hin. apply (Hno t). apply list_elem_of_further, Hin.
Qed.

Lemma ejecutar_conserva_prestamos_witness :
  ejecutar programa_ida_y_vuelta (mundo_prestado MultaEstandar (3 * un_dia))
  = Some (tt, mundo_ida_y_vuelta) /\
  objetos_prestamo (mundo_prestado MultaEstandar (3 * un_dia)) !! 0%nat
  = Some (prestamo_ana false) /\
  exists P', objetos_prestamo mundo_ida_y_vuelta !! 0%nat = Some P' /\
             fecha_prestamo P' = 0 /\ fecha_devolucion P' = 14 * un_dia.
Proof.
  assert (He : ejecutar programa_ida_y_vuelta
                 (mundo_prestado MultaEstandar (3 * un_dia))
               = Some (tt, mundo_ida_y_vuelta)) by (vm_compute; reflexivity).
  split; [exact He|]. split; [reflexivity|].
  destruct (ejecutar_conserva_prestamos _ _ _ 0%nat (prestamo_ana false) He)
    as (P' & HP' & _ & _ & Hf & Hd); [reflexivity|].
  exists P'. split; [exact HP'|]. split; [exact Hf|]. apply Hd.
  intros t Hin. apply list_elem_of_In in Hin. cbn in Hin.
  destruct Hin as [Hx|[Hx|[Hx|[]]]]; discriminate.
Defined.

(** X11: no sequence of operations changes the fine calculator or the
    notifier of a manager, and a manager's collection of loans only grows at
    its end: what it held stays, in the same order. *)
Theorem ejecutar_conserva_gestores ops w w' g G :
  ejecutar ops w = Some (tt, w') -> gestores w !! g = Some G ->
  exists G' nuevos, gestores w' !! g = Some G' /\
    calculadora_multa G' = calculadora_multa G /\
    notificador G' = notificador G /\
    prestamos G' = prestamos G ++ nuevos.
Proof. intros H. apply ejecutar_sigue in H as [_ _ _ H4 _ _]. apply H4. Qed.

Lemma ejecutar_conserva_gestores_witness :
  ejecutar programa_ida_y_vuelta (mundo_prestado MultaEstandar (3 * un_dia))
  = Some (tt, mundo_ida_y_vuelta) /\
  gestores (mundo_prestado MultaEstandar (3 * un_dia)) !! 0%nat
  = Some (gestor_unico MultaEstandar NotificadorEmail [0%nat]) /\
  exists G' nuevos, gestores mundo_ida_y_vuelta !! 0%nat = Some G' /\
    prestamos G' = [0%nat] ++ nuevos.
Proof.
  assert (He : ejecutar programa_ida_y_vuelta
                 (mundo_prestado MultaEstandar (3 * un_dia))
               = Some (tt, mundo_ida_y_vuelta)) by (vm_compute; reflexivity).
  split; [exact He|]. split; [reflexivity|].
  destruct (ejecutar_conserva_gestores _ _ _ 0%nat
              (gestor_unico MultaEstandar NotificadorEmail [0%nat]) He)
    as (G' & nuevos & HG' & _ & _ & Hp); [reflexivity|].
  exists G', nuevos. split; [exact HG'|exact Hp].
Defined.

(** ** Programs over the classes of the source file *)

Lemma del_programa_inicial r z : del_programa (mundo_inicial r z).
Proof.
  split; cbn; [|constructor].
  intros g G H. rewrite lookup_nil in H. discriminate.
Qed.

Lemma calculadora_del_programa c d :
  c ∈ [MultaEstandar; MultaEstudiante; MultaVIP] ->
  snd (calcular c d) = [] /\
  (fst (calcular c d) = d * 10 \/ fst (calcular c d) = d * 5
   \/ fst (calcular c d) = 0).
Proof.
  intros Hc. apply list_elem_of_In in Hc. cbn in Hc.
  destruct Hc as [<-|[<-|[<-|[]]]]; cbn; auto.
Qed.

Lemma notificador_del_programa n mensaje destinatario :
  n ∈ [NotificadorEmail; NotificadorSMS] ->
  fst (enviar n mensaje destinatario) = true /\
  Forall evento_del_programa (map Consola (snd (enviar n mensaje destinatario))).
Proof.
  intros Hn. apply list_elem_of_In in Hn. cbn in Hn.
  destruct Hn as [<-|[<-|[]]]; cbn; split; try reflexivity;
    repeat constructor.
Qed.

Lemma paso_del_programa o w w' :
  con_clases_del_programa o ->
  paso o w = Some (tt, w') -> del_programa w -> del_programa w'.
Proof.
  intros Ho H [Hg Ht].
  destruct o as [t a i|n i|c n|g b u|g p|p t]; cbn [paso] in H.
  - injection H as <-. split; assumption.
  - injection H as <-. split; assumption.
  - injection H as <-. split; [|exact Ht]. simpl_mundo.
    intros g G HG. apply lookup_snoc_Some in HG as [[_ HG]|[_ <-]];
      [eapply Hg, HG|exact Ho].
  - rewrite bind_M in H.
    destruct (realizar_prestamo g b u w) as [[r w1]|] eqn:Hr; [|discriminate].
    injection H as <-.
    apply realizar_prestamo_inv in Hr
      as (L & Hb & [(Hd & _ & ->)|(Hd & U & G & Hu & HG & _ & ->)]).
    + split; [exact Hg|]. unfold mundo_tras_rechazo. simpl_mundo.
      apply Forall_app. split; [exact Ht|]. repeat constructor.
    + destruct (Hg g G HG) as [Hc Hn].
      unfold mundo_tras_prestamo. split; simpl_mundo.
      * intros g' G' HG'.
        apply list_lookup_insert_Some in HG' as [(_ & <- & _)|[_ HG']];
          [split; assumption|eapply Hg, HG'].
      * apply Forall_app. split; [exact Ht|].
        unfold eventos_prestamo. cbv zeta.
        destruct (notificador_del_programa (notificador G)
                    (mensaje_prestamo (titulo L)
                       (fecha_devolucion (prestamo_nuevo w b u)))
                    (nombre U) Hn) as [Hr Hl].
        apply Forall_app. split; [exact Hl|]. rewrite Hr. repeat constructor.
  - apply devolver_libro_inv in H
      as (P & Hp & [(Hd & ->)|(Hd & L & U & informe & Hl & Hu & -> & Hi)]).
    + split; [exact Hg|]. unfold mundo_tras_ya_devuelto. simpl_mundo.
      apply Forall_app. split; [exact Ht|]. repeat constructor.
    + split; [exact Hg|]. unfold mundo_tras_devolucion. simpl_mundo.
      apply Forall_app. split; [exact Ht|].
      apply Forall_app. split; [|repeat constructor].
      destruct Hi as [[_ ->]|(Hlate & G & HG & ->)]; [repeat constructor|].
      destruct (Hg g G HG) as [Hc _].
      unfold informe_tarde. cbv zeta.
      destruct (calculadora_del_programa (calculadora_multa G)
                  ((reloj w (lecturas w) - fecha_devolucion P)
                     / (1000 * 60 * 60 * 24)) Hc) as [Hs Hf].
      rewrite Hs. cbn [map app]. constructor; [|constructor].
      cbn [evento_del_programa]. split; [|exact Hf].
      apply Z.div_pos; lia.
  - destruct (objetos_prestamo w !! p) as [P|] eqn:Hp.
    + rewrite (escribir_prestamo_Some _ _ _ _ Hp) in H. injection H as <-.
      split; assumption.
    + rewrite (escribir_prestamo_None _ _ _ Hp) in H. discriminate.
Qed.

Lemma ejecutar_del_programa ops w w' :
  Forall con_clases_del_programa ops ->
  ejecutar ops w = Some (tt, w') -> del_programa w -> del_programa w'.
Proof.
  intros Hops. revert w. induction Hops as [|o ops Ho Hops IH]; intros w H Hd.
  - injection H as <-. exact Hd.
  - rewrite ejecutar_cons in H.
    destruct (paso o w) as [[[] w1]|] eqn:Hp; [|discriminate].
    eapply IH; [exact H|]. eapply paso_del_programa; eassumption.
Qed.

(** X12: a program that builds its managers from [MultaEstandar],
    [MultaEstudiante], [MultaVIP], [NotificadorEmail] and [NotificadorSMS]
    never reports a negative number of days late nor a negative fine: every
    late report on the console carries days [d >= 0] and the fine [10 d],
    [5 d] or [0]. *)
Theorem informes_de_retraso_no_negativos r z ops w d m :
  Forall con_clases_del_programa ops ->
  ejecutar ops (mundo_inicial r z) = Some (tt, w) ->
  Consola (LogRetraso d m) ∈ traza w ->
  0 <= d /\ 0 <= m /\ (m = 10 * d \/ m = 5 * d \/ m = 0).
Proof.
  intros Hops He Hin.
  destruct (ejecutar_del_programa _ _ _ Hops He (del_programa_inicial r z))
    as [_ Ht].
  rewrite Forall_forall in Ht. specialize (Ht _ Hin).
  cbn in Ht. lia.
Qed.

Lemma informes_de_retraso_no_negativos_witness :
  Forall con_clases_del_programa (programa_devolucion MultaEstudiante NotificadorSMS) /\
  ejecutar (programa_devolucion MultaEstudiante NotificadorSMS)
    (mundo_inicial (reloj_prestamo 0 (17 * un_dia)) zona_utc)
  = Some (tt, mundo_de (reloj_prestamo 0 (17 * un_dia)) zona_utc
                (programa_devolucion MultaEstudiante NotificadorSMS)) /\
  Consola (LogRetraso 3 15)
    ∈ traza (mundo_de (reloj_prestamo 0 (17 * un_dia)) zona_utc
               (programa_devolucion MultaEstudiante NotificadorSMS)) /\
  0 <= 3 /\ 0 <= 15.
Proof.
  assert (Hops : Forall con_clases_del_programa
                   (programa_devolucion MultaEstudiante NotificadorSMS)).
  { repeat constructor. }
  assert (He : ejecutar (programa_devolucion MultaEstudiante NotificadorSMS)
                 (mundo_inicial (reloj_prestamo 0 (17 * un_dia)) zona_utc)
               = Some (tt, mundo_de (reloj_prestamo 0 (17 * un_dia)) zona_utc
                             (programa_devolucion MultaEstudiante NotificadorSMS)))
    by (vm_compute; reflexivity).
  assert (Hin : Consola (LogRetraso 3 15)
                  ∈ traza (mundo_de (reloj_prestamo 0 (17 * un_dia)) zona_utc
                             (programa_devolucion MultaEstudiante NotificadorSMS))).
  { apply list_elem_of_In. vm_compute. tauto. }
  split; [exact Hops|]. split; [exact He|]. split; [exact Hin|].
  destruct (informes_de_retraso_no_negativos _ _ _ _ 3 15 Hops He Hin)
    as (H1 & H2 & _).
  exact (conj H1 H2).
Defined.

(** X13: in such a program no notification is refused: every call of
    [enviar] on record has returned [true]. *)
Theorem avisos_siempre_aceptados r z ops w mensaje destinatario resultado :
  Forall con_clases_del_programa ops ->
  ejecutar ops (mundo_inicial r z) = Some (tt, w) ->
  Llamada_enviar mensaje destinatario resultado ∈ traza w ->
  resultado = true.
Proof.
  intros Hops He Hin.
  destruct (ejecutar_del_programa _ _ _ Hops He (del_programa_inicial r z))
    as [_ Ht].
  rewrite Forall_forall in Ht. exact (Ht _ Hin).
Qed.

Lemma avisos_siempre_aceptados_witness :
  Forall con_clases_del_programa (programa_prestamo MultaEstandar NotificadorEmail) /\
  ejecutar (programa_prestamo MultaEstandar NotificadorEmail)
    (mundo_inicial (reloj_prestamo 0 0) zona_utc)
  = Some (tt, mundo_prestado MultaEstandar 0) /\
  length (llamadas_enviar (traza (mundo_prestado MultaEstandar 0))) = 1%nat /\
  forall mensaje destinatario resultado,
    Llamada_enviar mensaje destinatario resultado
      ∈ traza (mundo_prestado MultaEstandar 0) ->
    resultado = true.
Proof.
  assert (Hops : Forall con_clases_del_programa
                   (programa_prestamo MultaEstandar NotificadorEmail)).
  { repeat constructor. }
  assert (He : ejecutar (programa_prestamo MultaEstandar NotificadorEmail)
                 (mundo_inicial (reloj_prestamo 0 0) zona_utc)
               = Some (tt, mundo_prestado MultaEstandar 0))
    by (vm_compute; reflexivity).
  split; [exact Hops|]. split; [exact He|]. split; [reflexivity|].
  intros mensaje destinatario resultado Hin.
  exact (avisos_siempre_aceptados _ _ _ _ _ _ _ Hops He Hin).
Defined.

(** ** The methods return *)

(** X14: in a world a program has reached, a call of either method on an
    existing manager returns: [devolver_libro] for every loan object, and
    [realizar_prestamo] for every book and user; the objects a loan refers
    to are never missing. *)
Theorem metodos_retornan w this G :
  alcanzable w -> gestores w !! this = Some G ->
  (forall p, is_Some (objetos_prestamo w !! p) ->
     exists w', devolver_libro this p w = Some (tt, w')) /\
  (forall b u, is_Some (libros w !! b) -> is_Some (usuarios w !! u) ->
     exists r w', realizar_prestamo this b u w = Some (r, w')).
Proof.
  intros Hw Hg. split.
  - intros p [P HP]. eapply devolver_libro_retorna; eassumption.
  - intros b u [L HL] [U HU]. destruct (disponible L) eqn:Hd.
    + eexists _, _. eapply realizar_prestamo_disponible; eassumption.
    + eexists _, _. eapply realizar_prestamo_no_disponible; eassumption.
Qed.

Lemma metodos_retornan_witness :
  alcanzable (mundo_dos_gestores 0) /\
  gestores (mundo_dos_gestores 0) !! 1%nat
  = Some (gestor_unico MultaEstudiante NotificadorSMS []) /\
  (exists w', devolver_libro 1 0 (mundo_dos_gestores 0) = Some (tt, w')) /\
  (exists r w', realizar_prestamo 1 0 1 (mundo_dos_gestores 0) = Some (r, w')).
Proof.
  assert (Hw : alcanzable (mundo_dos_gestores 0)).
  { apply (alcanzable_mundo_de (reloj_prestamo 0 0) zona_utc
             (programa_dos_gestores ++ [OpRealizarPrestamo 0 0 0])).
    vm_compute. reflexivity. }
  split; [exact Hw|]. split; [reflexivity|].
  destruct (metodos_retornan (mundo_dos_gestores 0) 1
              (gestor_unico MultaEstudiante NotificadorSMS []) Hw eq_refl)
    as [Hd Hr].
  split.
  - apply Hd. eexists. reflexivity.
  - apply Hr; eexists; reflexivity.
Defined.

(** ** The program [main] *)

(** Evaluates [main] and the constructors and methods under it, leaving the
    dates, the clock readings and the texts as they are written. *)
Ltac correr_main :=
  cbv -[mensaje_prestamo setDate getDate Z.ltb Z.sub Z.div Z.mul Z.add
        repetir String.append].

(** What [main] ends in, for every clock and time zone. *)
Lemma main_corre r z :
  match main (arranque r z) with
  | Some (_, s) =>
      let vence1 := r 4%nat - 3 * 24 * 60 * 60 * 1000 in
      let vence2 := setDate z (r 3%nat) (getDate z (r 3%nat) + 14) in
      let mensaje1 :=
        mensaje_prestamo "1984" (setDate z (r 1%nat) (getDate z (r 1%nat) + 14)) in
      let mensaje2 := mensaje_prestamo "Cien años de soledad" vence2 in
      let informe1 :=
        if vence1 <? r 5%nat
        then LogRetraso ((r 5%nat - vence1) / (1000 * 60 * 60 * 24))
               ((r 5%nat - vence1) / (1000 * 60 * 60 * 24) * 10)
        else LogATiempo in
      let informe2 :=
        if vence2 <? r 6%nat
        then LogRetraso ((r 6%nat - vence2) / (1000 * 60 * 60 * 24))
               ((r 6%nat - vence2) / (1000 * 60 * 60 * 24) * 5)
        else LogATiempo in
      (libros (mundo s) = [libro_1984 true; libro_cien_anios] /\
      usuarios (mundo s) = [usuario_ana; usuario_carlos] /\
      objetos_prestamo (mundo s)
      = [{| libro := 0%nat; usuario := 0%nat; fecha_prestamo := r 0%nat;
            fecha_devolucion := r 4%nat - 3 * 24 * 60 * 60 * 1000;
            devuelto := true |};
         {| libro := 1%nat; usuario := 1%nat; fecha_prestamo := r 2%nat;
            fecha_devolucion := setDate z (r 3%nat) (getDate z (r 3%nat) + 14);
            devuelto := true |}] /\
      gestores (mundo s)
      = [gestor_unico MultaEstandar NotificadorEmail [0%nat];
         gestor_unico MultaEstudiante NotificadorSMS [1%nat]] /\
      lecturas (mundo s) = 7%nat) /\
      consola s
      = [Linea_main "🏛️  SISTEMA DE BIBLIOTECA - PRINCIPIOS SOLID";
         Linea_main (repetir "=" 50);
         Linea_main (salto +:+ "📋 GESTOR PARA USUARIOS REGULARES:");
         Linea_main (salto +:+ "📋 GESTOR PARA ESTUDIANTES:");
         Linea_main (salto +:+ "🔄 REALIZANDO PRÉSTAMOS:");
         Del_objeto (Consola (LogEmail "Ana García" mensaje1));
         Del_objeto (Llamada_enviar mensaje1 "Ana García" true);
         Del_objeto (Consola (LogPrestamoRealizado "1984" "Ana García"));
         Del_objeto (Consola (LogSMS "Carlos López" mensaje2));
         Del_objeto (Llamada_enviar mensaje2 "Carlos López" true);
         Del_objeto (Consola (LogPrestamoRealizado "Cien años de soledad"
                                "Carlos López"));
         Linea_main (salto +:+ "📅 SIMULANDO DEVOLUCIÓN TARDÍA:");
         Del_objeto (Consola informe1);
         Del_objeto (Consola (LogDevuelto "1984" "Ana García"));
         Linea_main (salto +:+ "📅 DEVOLUCIÓN A TIEMPO:");
         Del_objeto (Consola informe2);
         Del_objeto (Consola (LogDevuelto "Cien años de soledad" "Carlos López"))]
  | None => False
  end.
Proof.
  correr_main.
  destruct (r 4%nat - 3 * 24 * 60 * 60 * 1000 <? r 5%nat); correr_main;
    destruct (setDate z (r 3%nat) (getDate z (r 3%nat) + 14) <? r 6%nat);
    correr_main; repeat split.
Qed.

(** X15: [main] runs to its end whatever the clock and the time zone: no
    step of it meets a missing object or a rejected loan.
    It leaves both books available again, both loans returned (the first
    with the due date [main] assigned, three days before the clock reading
    it took), each manager holding the loan it issued, and it has read the
    clock seven times. *)
Theorem main_termina r z :
  exists s,
    main (arranque r z) = Some (tt, s) /\
    libros (mundo s) = [libro_1984 true; libro_cien_anios] /\
    usuarios (mundo s) = [usuario_ana; usuario_carlos] /\
    objetos_prestamo (mundo s)
    = [{| libro := 0%nat; usuario := 0%nat; fecha_prestamo := r 0%nat;
          fecha_devolucion := r 4%nat - 3 * 24 * 60 * 60 * 1000;
          devuelto := true |};
       {| libro := 1%nat; usuario := 1%nat; fecha_prestamo := r 2%nat;
          fecha_devolucion := setDate z (r 3%nat) (getDate z (r 3%nat) + 14);
          devuelto := true |}] /\
    gestores (mundo s)
    = [gestor_unico MultaEstandar NotificadorEmail [0%nat];
       gestor_unico MultaEstudiante NotificadorSMS [1%nat]] /\
    lecturas (mundo s) = 7%nat.
Proof.
  pose proof (main_corre r z) as H.
  destruct (main (arranque r z)) as [[[] s]|]; [|contradiction].
  exists s. split; [reflexivity|]. cbv zeta in H. apply H.
Qed.

(** X16: what [main] writes, in order, for every clock and time zone: its
    two title lines, the headings of the two managers, the two loans with
    their notifications (by e-mail to Ana García, by SMS to Carlos López),
    then under each of the two return headings the report of that return
    and the line of the book returned.  The first return is reported late
    when the clock read for it is past the due date that [main] assigned,
    with the standard fine of 10 per whole day; the second is reported late
    when the clock is past its due date, with the student fine of 5 per
    whole day, and on time otherwise. *)
Theorem main_escribe r z :
  let vence1 := r 4%nat - 3 * 24 * 60 * 60 * 1000 in
  let vence2 := setDate z (r 3%nat) (getDate z (r 3%nat) + 14) in
  let mensaje1 :=
    mensaje_prestamo "1984" (setDate z (r 1%nat) (getDate z (r 1%nat) + 14)) in
  let mensaje2 := mensaje_prestamo "Cien años de soledad" vence2 in
  let informe1 :=
    if vence1 <? r 5%nat
    then LogRetraso ((r 5%nat - vence1) / (1000 * 60 * 60 * 24))
           ((r 5%nat - vence1) / (1000 * 60 * 60 * 24) * 10)
    else LogATiempo in
  let informe2 :=
    if vence2 <? r 6%nat
    then LogRetraso ((r 6%nat - vence2) / (1000 * 60 * 60 * 24))
           ((r 6%nat - vence2) / (1000 * 60 * 60 * 24) * 5)
    else LogATiempo in
  exists s,
    main (arranque r z) = Some (tt, s) /\
    consola s
    = [Linea_main "🏛️  SISTEMA DE BIBLIOTECA - PRINCIPIOS SOLID";
       Linea_main (repetir "=" 50);
       Linea_main (salto +:+ "📋 GESTOR PARA USUARIOS REGULARES:");
       Linea_main (salto +:+ "📋 GESTOR PARA ESTUDIANTES:");
       Linea_main (salto +:+ "🔄 REALIZANDO PRÉSTAMOS:");
       Del_objeto (Consola (LogEmail "Ana García" mensaje1));
       Del_objeto (Llamada_enviar mensaje1 "Ana García" true);
       Del_objeto (Consola (LogPrestamoRealizado "1984" "Ana García"));
       Del_objeto (Consola (LogSMS "Carlos López" mensaje2));
       Del_objeto (Llamada_enviar mensaje2 "Carlos López" true);
       Del_objeto (Consola (LogPrestamoRealizado "Cien años de soledad"
                              "Carlos López"));
       Linea_main (salto +:+ "📅 SIMULANDO DEVOLUCIÓN TARDÍA:");
       Del_objeto (Consola informe1);
       Del_objeto (Consola (LogDevuelto "1984" "Ana García"));
       Linea_main (salto +:+ "📅 DEVOLUCIÓN A TIEMPO:");
       Del_objeto (Consola informe2);
       Del_objeto (Consola (LogDevuelto "Cien años de soledad" "Carlos López"))].
Proof.
  pose proof (main_corre r z) as H.
  destruct (main (arranque r z)) as [[[] s]|]; [|contradiction].
  exists s. split; [reflexivity|]. cbv zeta in H. apply H.
Qed.


